(** * Twitter Insight Agent: a shallow embedding of [twitter_insight_agent.py]

    The development follows the two methods of [TwitterInsightAgent] that
    carry decisions: [get_user_tweets] (the feed fetcher) and
    [generate_insights] (the insight generator with its retry loop).

    Conventions.
    - A Python [str] is a sequence of Unicode code points: [list N].
    - A Python [int] is a [Z].
    - The outside world (the Twitter client, the completion endpoint, the
      clock) is an explicit environment record; what the program does to
      the world (requests, sleeps, console lines) is logged as a trace of
      events threaded through a state monad.
    - An exception caught by an [except] clause is a value that the
      handler inspects; [get_user_tweets] can let one escape, so its
      result is a sum. *)

From Stdlib Require Import ZArith NArith List String Ascii Bool Lia.
From Stdlib Require Import DecimalString.
Import ListNotations.

Set Implicit Arguments.

(* ===================================================================== *)
(** ** Python strings *)
(* ===================================================================== *)

Module PyStr.

Definition pystr := list N.

(** A source literal, given by its ASCII text. *)
Definition lit (s : string) : pystr :=
  map N_of_ascii (list_ascii_of_string s).

Definition newline : pystr := [10%N].

Definition eqb (s t : pystr) : bool :=
  if list_eq_dec N.eq_dec s t then true else false.

(** [str.isspace] on one code point, as [str.strip()] uses it. *)
Definition is_whitespace (c : N) : bool :=
  ((9 <=? c) && (c <=? 13) || (28 <=? c) && (c <=? 32)
   || (c =? 133) || (c =? 160) || (c =? 5760)
   || (8192 <=? c) && (c <=? 8202)
   || (c =? 8232) || (c =? 8233) || (c =? 8239)
   || (c =? 8287) || (c =? 12288))%N.

(** [s.lstrip(chars)]: drop leading code points that belong to [chars]. *)
Fixpoint lstrip_chars (chars : pystr) (s : pystr) : pystr :=
  match s with
  | [] => []
  | c :: rest =>
      if existsb (N.eqb c) chars then lstrip_chars chars rest else s
  end.

Fixpoint lstrip (s : pystr) : pystr :=
  match s with
  | [] => []
  | c :: rest => if is_whitespace c then lstrip rest else s
  end.

Definition rstrip (s : pystr) : pystr := rev (lstrip (rev s)).

(** [s.strip()] *)
Definition strip (s : pystr) : pystr := rstrip (lstrip s).

(** [str(n)] for an [int]: decimal, with a minus sign when negative. *)
Definition str_of_int (n : Z) : pystr :=
  lit (NilZero.string_of_int (Z.to_int n)).

(** [sep.join(parts)] *)
Fixpoint join (sep : pystr) (parts : list pystr) : pystr :=
  match parts with
  | [] => []
  | [p] => p
  | p :: rest => p ++ sep ++ join sep rest
  end.

(** [s.split(sep)] for a one-character separator. *)
Fixpoint split_on (sep : N) (s : pystr) : list pystr :=
  match s with
  | [] => [[]]
  | c :: rest =>
      if N.eqb c sep then [] :: split_on sep rest
      else match split_on sep rest with
           | [] => [[c]]
           | w :: ws => (c :: w) :: ws
           end
  end.

Definition lines (s : pystr) : list pystr := split_on 10%N s.

Fixpoint starts_with (p s : pystr) : bool :=
  match p, s with
  | [], _ => true
  | _ :: _, [] => false
  | a :: p', b :: s' => N.eqb a b && starts_with p' s'
  end.

(** [needle in s] *)
Fixpoint contains (needle s : pystr) : bool :=
  starts_with needle s ||
  match s with
  | [] => false
  | _ :: rest => contains needle rest
  end.

(** Propositional containment: [needle] occurs somewhere in [s]. *)
Definition mentions (s needle : pystr) : Prop :=
  exists before after, s = before ++ needle ++ after.

End PyStr.

Import PyStr.
Arguments lit s%_string.

(* ===================================================================== *)
(** ** JSON values and the subscripts the program applies to them *)
(* ===================================================================== *)

Module Json.

(** The value [response.json()] yields.  A float is kept as its literal. *)
#[warnings="-register-all"] Inductive json : Type :=
| JNull
| JBool (b : bool)
| JInt (z : Z)
| JFloat (literal : pystr)
| JStr (s : pystr)
| JArr (items : list json)
| JObj (fields : list (pystr * json)).

(** A [dict] with string keys, in insertion order. *)
Fixpoint dict_get {V : Type} (k : pystr) (d : list (pystr * V)) : option V :=
  match d with
  | [] => None
  | (k', v) :: rest => if PyStr.eqb k k' then Some v else dict_get k rest
  end.

(** [v['name']] or [v[i]] with a non-negative literal index. *)
Inductive subscript : Type :=
| Key (name : pystr)
| Index (i : nat).

(** The built-in errors the extraction expression can raise. *)
Inductive py_error : Type :=
| KeyError (k : subscript)
| IndexError (v : json)
| TypeError (v : json) (k : subscript)
| AttributeError (v : json) (attr : pystr).

(** [v[k]] *)
Definition getitem (v : json) (k : subscript) : json + py_error :=
  match v, k with
  | JObj fields, Key name =>
      match dict_get name fields with
      | Some x => inl x
      | None => inr (KeyError k)
      end
  | JObj _, Index _ => inr (KeyError k)
  | JArr items, Index i =>
      match nth_error items i with
      | Some x => inl x
      | None => inr (IndexError v)
      end
  | JStr s, Index i =>
      match nth_error s i with
      | Some c => inl (JStr [c])
      | None => inr (IndexError v)
      end
  | _, _ => inr (TypeError v k)
  end.

(** [v.strip()] *)
Definition call_strip (v : json) : pystr + py_error :=
  match v with
  | JStr s => inl (strip s)
  | _ => inr (AttributeError v (lit "strip"))
  end.

Definition and_then {A B : Type} (r : A + py_error) (k : A -> B + py_error)
  : B + py_error :=
  match r with
  | inl a => k a
  | inr e => inr e
  end.

End Json.

Import Json.

(* ===================================================================== *)
(** ** The world: events, environment, state monad *)
(* ===================================================================== *)

Module World.

(** [requests.post(url, headers=..., json=..., timeout=...)] *)
Record request : Type := Request {
  url : pystr;
  headers : list (pystr * pystr);
  data : list (pystr * json);
  timeout : Z
}.

(** The keyword arguments of [get_users_tweets]. *)
Record tweets_query : Type := TweetsQuery {
  query_id : Z;
  max_results : Z;
  tweet_fields : list pystr
}.

Inductive event : Type :=
| Sleep (seconds : Z)
| Post (rq : request)
| Print (line : pystr)
| GetUser (username : pystr)
| GetUsersTweets (q : tweets_query)
| ReadClock.

(** What has happened so far: how many completion requests were sent,
    and the trace of all events, oldest first. *)
Record world : Type := MkWorld {
  posts_made : nat;
  trace : list event
}.

Definition fresh : world := MkWorld 0 [].

Definition M (A : Type) : Type := world -> A * world.

Definition ret {A : Type} (a : A) : M A := fun w => (a, w).

Definition bind {A B : Type} (m : M A) (k : A -> M B) : M B :=
  fun w => let (a, w') := m w in k a w'.

Definition emit (e : event) : M unit :=
  fun w => (tt, MkWorld (posts_made w) (trace w ++ [e])).

Definition sleeps (t : list event) : list Z :=
  flat_map (fun e => match e with Sleep d => [d] | _ => [] end) t.

Definition posts (t : list event) : list request :=
  flat_map (fun e => match e with Post rq => [rq] | _ => [] end) t.


End World.

Import World.

Declare Scope world_scope.
Delimit Scope world_scope with world.
Notation "x <- m ;; k" := (bind m (fun x => k))
  (at level 61, m at next level, right associativity) : world_scope.
Notation "m ;;; k" := (bind m (fun _ => k))
  (at level 61, right associativity) : world_scope.
Open Scope world_scope.

(* ===================================================================== *)
(** ** The agent and its completion endpoint *)
(* ===================================================================== *)

Module Agent.

(** The fields [__init__] reads from the environment. *)
Record agent : Type := MkAgent {
  bearer_token : pystr;
  openrouter_api_key : pystr;
  openrouter_model : pystr
}.

(** The [except] clauses of [generate_insights] tell three classes apart:
    [requests.exceptions.Timeout], any other
    [requests.exceptions.RequestException], and any other [Exception]. *)
Inductive exn_class : Type :=
| Timeout
| RequestException
| OtherException.

(** An exception with what [str(e)] gives. *)
Record exn : Type := Exn {
  class_of : exn_class;
  str_of : pystr
}.

(** The parts of a [requests.Response] the program reads.  [json] is what
    the call [response.json()] does: it yields a value or raises. *)
Record response : Type := Response {
  status_code : Z;
  text : pystr;
  json_of : json + exn
}.

(** The completion side of the outside world.  [post n rq] is what the
    [n]-th call of [requests.post] (counting from 0) does with request
    [rq]: it returns a response or raises.  [describe] is the text
    [str(e)] the interpreter gives a built-in error; the source does not
    fix it. *)
Record endpoint : Type := Endpoint {
  post : nat -> request -> response + exn;
  describe : py_error -> pystr
}.

Definition requests_post (net : endpoint) (rq : request)
  : M (response + exn) :=
  fun w => (post net (posts_made w) rq,
            MkWorld (S (posts_made w)) (trace w ++ [Post rq])).

Definition time_sleep (seconds : Z) : M unit := emit (Sleep seconds).

Definition print (line : pystr) : M unit := emit (Print line).

End Agent.

Import Agent.

(* ===================================================================== *)
(** ** [generate_insights] *)
(* ===================================================================== *)

Module Generator.

(** [enumerate(l)], counting from [start]. *)
Fixpoint enumerate_from {A : Type} (start : nat) (l : list A)
  : list (nat * A) :=
  match l with
  | [] => []
  | x :: rest => (start, x) :: enumerate_from (S start) rest
  end.

Definition enumerate {A : Type} (l : list A) : list (nat * A) :=
  enumerate_from 0 l.

(** f"Tweet {i+1}: {tweet}" *)
Definition tweet_line (it : nat * pystr) : pystr :=
  let (i, tweet) := it in
  lit "Tweet " ++ str_of_int (Z.of_nat i + 1) ++ lit ": " ++ tweet.

Definition tweets_text (tweets : list pystr) : pystr :=
  join newline (map tweet_line (enumerate tweets)).

(** The f-string assigned to [prompt]. *)
Definition build_prompt (tweet_count : Z) (tweets_text : pystr) : pystr :=
  lit "Analyze the following " ++ str_of_int tweet_count
  ++ lit " tweets and generate exactly 3 concise, actionable insights. Focus on sentiment, main topics, trends, or notable patterns. Each insight must be unique and specific to the content provided. Format your response as a numbered list (1-3)."
  ++ newline
  ++ newline
  ++ lit "Tweets to analyze:" ++ newline
  ++ tweets_text ++ newline
  ++ newline
  ++ lit "Requirements:" ++ newline
  ++ lit "- Each insight should be 1-2 sentences" ++ newline
  ++ lit "- Focus on actionable observations" ++ newline
  ++ lit "- Avoid vague statements" ++ newline
  ++ lit "- Be specific to the tweet content" ++ newline
  ++ lit "- Number each insight (1, 2, 3)".

Definition prompt_of (tweets : list pystr) (tweet_count : Z) : pystr :=
  build_prompt tweet_count (tweets_text tweets).

Definition max_retries : nat := 3.
Definition base_delay : Z := 1.

(** [base_delay * (2 ** attempt)] *)
Definition delay_of (attempt : nat) : Z :=
  base_delay * 2 ^ Z.of_nat attempt.

(** The [headers] and [data] dictionaries and the call's other arguments. *)
Definition completion_request (self : agent) (prompt : pystr) : request :=
  Request
    (lit "https://openrouter.ai/api/v1/completions")
    [ (lit "Authorization", lit "Bearer " ++ openrouter_api_key self);
      (lit "Content-Type", lit "application/json");
      (lit "HTTP-Referer", lit "https://github.com/twitter-insight-agent");
      (lit "X-Title", lit "Twitter Insight Agent") ]
    [ (lit "model", JStr (openrouter_model self));
      (lit "prompt", JStr prompt);
      (lit "max_tokens", JInt 300);
      (lit "temperature", JFloat (lit "0.7")) ]
    30.

(** [result['choices'][0]['text'].strip()] *)
Definition first_choice_text (result : json) : pystr + py_error :=
  and_then (getitem result (Key (lit "choices"))) (fun choices =>
  and_then (getitem choices (Index 0)) (fun choice =>
  and_then (getitem choice (Key (lit "text"))) call_strip)).

(** The mark that opens the three console lines, as the source file has
    it, followed by two spaces. *)
Definition warn_mark : pystr :=
  [8218; 246; 8224; 212; 8719; 232; 32; 32]%N.

Definition busy_message : pystr :=
  lit "AI service is currently busy. Please try again in a few minutes.".

Definition timed_out_message : pystr :=
  lit "Request timed out. Please try again.".

Definition connection_error_message (e : exn) : pystr :=
  lit "Error connecting to AI service: " ++ str_of e.

Definition status_error_message (response : response) : pystr :=
  lit "Error generating insights: " ++ str_of_int (status_code response)
  ++ lit " - " ++ text response.

(** The three console lines printed before a retry. *)
Definition rate_limited_notice (delay : Z) : pystr :=
  warn_mark ++ lit "Rate limited. Waiting " ++ str_of_int delay
  ++ lit " seconds before retry...".

Definition timed_out_notice (delay : Z) : pystr :=
  warn_mark ++ lit "Request timed out. Retrying in " ++ str_of_int delay
  ++ lit " seconds...".

Definition connection_error_notice (delay : Z) : pystr :=
  warn_mark ++ lit "Connection error. Retrying in " ++ str_of_int delay
  ++ lit " seconds...".

(** How one pass through the loop body ends: with [return] or with
    [continue]. *)
Inductive flow : Type :=
| Return (value : pystr)
| Continue.

(** The body of the [try] block.  An exception leaves it as [inr]. *)
Definition try_body (net : endpoint) (self : agent) (prompt : pystr)
    (attempt : nat) : M (flow + exn) :=
  r <- requests_post net (completion_request self prompt) ;;
  match r with
  | inr e => ret (inr e)
  | inl response =>
      if (status_code response =? 200)%Z then
        match json_of response with
        | inr e => ret (inr e)
        | inl result =>
            match first_choice_text result with
            | inl insights => ret (inl (Return insights))
            | inr err => ret (inr (Exn OtherException (describe net err)))
            end
        end
      else if (status_code response =? 429)%Z then
        if (attempt <? max_retries - 1)%nat then
          let delay := delay_of attempt in
          print (rate_limited_notice delay) ;;;
          time_sleep delay ;;;
          ret (inl Continue)
        else
          ret (inl (Return busy_message))
      else
        ret (inl (Return (status_error_message response)))
  end.

(** The three [except] clauses, in the order they are tried. *)
Definition on_exception (attempt : nat) (e : exn) : M flow :=
  match class_of e with
  | Timeout =>
      if (attempt <? max_retries - 1)%nat then
        let delay := delay_of attempt in
        print (timed_out_notice delay) ;;;
        time_sleep delay ;;;
        ret Continue
      else
        ret (Return timed_out_message)
  | RequestException =>
      if (attempt <? max_retries - 1)%nat then
        let delay := delay_of attempt in
        print (connection_error_notice delay) ;;;
        time_sleep delay ;;;
        ret Continue
      else
        ret (Return (connection_error_message e))
  | OtherException =>
      ret (Return (lit "Error generating insights: " ++ str_of e))
  end.

(** [for attempt in attempts: try: ... except ...], then the statement
    after the loop. *)
Fixpoint attempt_loop (net : endpoint) (self : agent) (prompt : pystr)
    (attempts : list nat) : M pystr :=
  match attempts with
  | [] =>
      ret (lit "Failed to generate insights after multiple attempts. Please try again later.")
  | attempt :: rest =>
      r <- try_body net self prompt attempt ;;
      f <- match r with
           | inl f => ret f
           | inr e => on_exception attempt e
           end ;;
      match f with
      | Return value => ret value
      | Continue => attempt_loop net self prompt rest
      end
  end.

Definition generate_insights (net : endpoint) (self : agent)
    (tweets : list pystr) (tweet_count : Z) : M pystr :=
  match tweets with
  | [] => ret (lit "No tweets available for analysis.")
  | _ :: _ =>
      attempt_loop net self (prompt_of tweets tweet_count)
                   (seq 0 max_retries)
  end.

End Generator.

Import Generator.

(* ===================================================================== *)
(** ** [get_user_tweets] *)
(* ===================================================================== *)

Module Fetcher.

(** What [hasattr(user_info, 'protected')] and [user_info.protected]
    can find. *)
Inductive protected_attr : Type :=
| NoAttribute
| IsNone
| IsBool (b : bool).

(** [user_response.data]; [user_id] is the attribute [id]. *)
Record user : Type := User {
  user_id : Z;
  protected : protected_attr
}.

(** An element of [tweets_response.data]; [tweet_text] is [text]. *)
Record tweet : Type := Tweet {
  tweet_text : pystr
}.

(** The values the program stores in variables and result dictionaries. *)
Inductive pyval : Type :=
| VNone
| VBool (b : bool)
| VInt (z : Z)
| VStr (s : pystr)
| VList (items : list pystr)
| VUser (u : user).

(** Python truth value. *)
Definition truthy (v : pyval) : bool :=
  match v with
  | VNone => false
  | VBool b => b
  | VInt z => negb (z =? 0)%Z
  | VStr s => negb (PyStr.eqb s [])
  | VList items => match items with [] => false | _ :: _ => true end
  | VUser _ => true
  end.

(** The value of one header: its text, and what [int()] makes of that
    text ([None] when [int()] raises [ValueError]). *)
Record header_value : Type := HeaderValue {
  raw : pystr;
  as_int : option Z
}.

(** [e.response] of a rate-limit error, as far as the handler reads it:
    [x_rate_limit_reset] is [headers.get('x-rate-limit-reset')]. *)
Record http_response : Type := HttpResponse {
  x_rate_limit_reset : option header_value
}.

(** The exception classes the [except] clauses of [get_user_tweets]
    tell apart.  [e_response] is [None] when the attribute is missing or
    holds [None]. *)
Inductive tweepy_error : Type :=
| TooManyRequests (e_response : option http_response)
| Unauthorized
| Forbidden
| OtherError (message : pystr).

(** An exception that leaves [get_user_tweets]. *)
Inductive uncaught : Type :=
| ValueError (text : pystr).

(** The feed side of the outside world: the two client calls, each
    returning the [data] of its response or raising, and the clock
    ([now] is [int(time.time())]). *)
Record twitter : Type := Twitter {
  get_user : pystr -> option user + tweepy_error;
  get_users_tweets : tweets_query -> option (list tweet) + tweepy_error;
  now : Z
}.

Definition client_get_user (tw : twitter) (username : pystr)
  : M (option user + tweepy_error) :=
  emit (GetUser username) ;;; ret (get_user tw username).

Definition client_get_users_tweets (tw : twitter) (q : tweets_query)
  : M (option (list tweet) + tweepy_error) :=
  emit (GetUsersTweets q) ;;; ret (get_users_tweets tw q).

Definition time_time (tw : twitter) : M Z :=
  emit ReadClock ;;; ret (now tw).

Definition dict : Type := list (pystr * pyval).

(** The dictionary every failure path returns. *)
Definition failure (error : pystr) (user_info : pyval) : dict :=
  [ (lit "success", VBool false);
    (lit "error", VStr error);
    (lit "tweets", VList []);
    (lit "user_info", user_info) ].

(** The first block of the rate-limit handler: the value of
    [reset_time] when it ends, or the [ValueError] of [int()]. *)
Definition read_reset_time (e_response : option http_response)
  : pyval + uncaught :=
  match e_response with
  | None => inl VNone
  | Some response =>
      match x_rate_limit_reset response with
      | None => inl VNone
      | Some h =>
          if truthy (VStr (raw h)) then
            match as_int h with
            | Some z => inl (VInt z)
            | None => inr (ValueError (raw h))
            end
          else inl (VStr (raw h))
      end
  end.

Definition generic_wait_message : pystr :=
  lit "Twitter API rate limit exceeded. Please wait 15 minutes and try again.".

Definition wait_seconds_message (wait_time : Z) : pystr :=
  lit "Twitter API rate limit exceeded. Please wait "
  ++ str_of_int wait_time ++ lit " seconds and try again.".

(** The second block of the rate-limit handler.  A truthy [reset_time]
    is always an [int] there, by [read_reset_time]. *)
Definition rate_limit_message (tw : twitter) (reset_time : pyval)
  : M pystr :=
  if truthy reset_time then
    current_time <- time_time tw ;;
    match reset_time with
    | VInt reset =>
        let wait_time := (reset - current_time)%Z in
        if (wait_time >? 0)%Z then ret (wait_seconds_message wait_time)
        else ret generic_wait_message
    | _ => ret generic_wait_message
    end
  else ret generic_wait_message.

(** The four [except] clauses. *)
Definition on_error (tw : twitter) (e : tweepy_error) : M (dict + uncaught) :=
  match e with
  | TooManyRequests e_response =>
      match read_reset_time e_response with
      | inr err => ret (inr err)
      | inl reset_time =>
          error_msg <- rate_limit_message tw reset_time ;;
          ret (inl (failure error_msg VNone))
      end
  | Unauthorized =>
      ret (inl (failure (lit "Twitter API authentication failed. The Bearer Token needs to be from a Twitter Developer App attached to a Project. Please check your credentials in the Twitter Developer Portal.") VNone))
  | Forbidden =>
      ret (inl (failure (lit "Twitter API access forbidden. The Bearer Token needs to be from a Twitter Developer App attached to a Project. Please check your Twitter Developer Portal settings.") VNone))
  | OtherError message =>
      ret (inl (failure (lit "Error fetching tweets: " ++ message) VNone))
  end.

(** [hasattr(user_info, 'protected') and user_info.protected] *)
Definition is_protected (user_info : user) : bool :=
  match protected user_info with
  | NoAttribute => false
  | IsNone => false
  | IsBool b => b
  end.

Definition tweets_query_of (user_info : user) : tweets_query :=
  TweetsQuery (user_id user_info) 5
              [lit "created_at"; lit "public_metrics"].

(** [tweets = []], then the comprehension when [data] is truthy. *)
Definition texts_of (data : option (list tweet)) : list pystr :=
  match data with
  | Some ((_ :: _) as data) => map tweet_text data
  | _ => []
  end.

(** The dictionary the success path returns. *)
Definition found (tweets : list pystr) (user_info : user) : dict :=
  [ (lit "success", VBool true);
    (lit "tweets", VList tweets);
    (lit "user_info", VUser user_info);
    (lit "tweet_count", VInt (Z.of_nat (List.length tweets))) ].

(** The [try] block raises [e]: the user lookup raises it, or the lookup
    finds an unprotected user and the tweet listing raises it. *)
Definition raises (tw : twitter) (username : pystr) (e : tweepy_error)
  : Prop :=
  let clean_username := lstrip_chars (lit "@") username in
  get_user tw clean_username = inr e
  \/ exists user_info,
       get_user tw clean_username = inl (Some user_info)
       /\ is_protected user_info = false
       /\ get_users_tweets tw (tweets_query_of user_info) = inr e.

Definition get_user_tweets (tw : twitter) (username : pystr)
  : M (dict + uncaught) :=
  let clean_username := lstrip_chars (lit "@") username in
  user_response <- client_get_user tw clean_username ;;
  match user_response with
  | inr e => on_error tw e
  | inl None =>
      ret (inl (failure (lit "User '@" ++ clean_username
                         ++ lit "' not found. Please check the username and try again.")
                        VNone))
  | inl (Some user_info) =>
      if is_protected user_info then
        ret (inl (failure (lit "Account '@" ++ clean_username
                           ++ lit "' is private/protected. Cannot access tweets.")
                          (VUser user_info)))
      else
        tweets_response <- client_get_users_tweets tw
                             (tweets_query_of user_info) ;;
        match tweets_response with
        | inr e => on_error tw e
        | inl data =>
            let tweets := texts_of data in
            ret (inl (found tweets user_info))
        end
  end.

End Fetcher.

Import Fetcher.

(* ===================================================================== *)
(** ** Concrete worlds used to exercise the statements *)
(* ===================================================================== *)

Module Samples.

Definition sample_agent : agent :=
  MkAgent (lit "twitter-token") (lit "openrouter-key")
          (lit "deepseek/deepseek-r1-distill-qwen-7b").

Definition rate_limited : response :=
  Response 429 (lit "Too Many Requests") (inr (Exn OtherException [])).

Definition completion (choice_text : pystr) : response :=
  Response 200 []
    (inl (JObj [ (lit "id", JStr (lit "gen-1"));
                 (lit "choices",
                  JArr [ JObj [ (lit "text", JStr choice_text) ] ]) ])).

Definition server_error : response :=
  Response 500 (lit "Internal Server Error") (inr (Exn OtherException [])).

Definition timed_out : exn := Exn Timeout (lit "Read timed out.").

Definition refused : exn := Exn RequestException (lit "Connection refused").

(** An endpoint that gives the same answer to every request. *)
Definition always (answer : response + exn) : endpoint :=
  Endpoint (fun _ _ => answer) (fun _ => lit "built-in error").

(** An endpoint that plays a script, then keeps giving [after]. *)
Definition scripted (script : list (response + exn))
    (after : response + exn) : endpoint :=
  Endpoint (fun n _ => nth n script after) (fun _ => lit "built-in error").

(** A client whose user lookup always gives [answer]. *)
Definition lookup_gives (answer : option user + tweepy_error) (clock : Z)
  : twitter :=
  Twitter (fun _ => answer) (fun _ => inl None) clock.

(** A client that finds a public user and lists the first
    [max_results] of that user's posts. *)
Definition public_feed (posted : list tweet) : twitter :=
  Twitter (fun _ => inl (Some (User 12 IsNone)))
          (fun q => if (0 <=? max_results q)%Z
                    then inl (Some (firstn (Z.to_nat (max_results q))
                                           posted))
                    else inl None)
          1700000000.

(** A rate-limit error whose response carries the reset header [text],
    which [int()] reads as [value]. *)
Definition too_many_requests (text : pystr) (value : Z) : tweepy_error :=
  TooManyRequests
    (Some (HttpResponse (Some (HeaderValue text (Some value))))).

Definition three_tweets : list pystr :=
  [lit "Great day!"; lit "Launch went well"; lit "Feedback welcome"].

End Samples.

Import Samples.

(* ===================================================================== *)
(** ** Answers the retry loop treats as passing *)
(* ===================================================================== *)

Module Retry.

(** An answer of the endpoint after which the loop sleeps and tries
    again when attempts remain: status 429, a timeout, or another
    connection error. *)
Definition transient (answer : response + exn) : Prop :=
  match answer with
  | inl r => status_code r = 429%Z
  | inr e => class_of e <> OtherException
  end.

(** A 200 response whose body has a first choice with text [t]. *)
Definition completes (answer : response + exn) (t : pystr) : Prop :=
  exists r fields choice others,
    answer = inl r
    /\ status_code r = 200%Z
    /\ json_of r = inl (JObj fields)
    /\ dict_get (lit "choices") fields = Some (JArr (JObj choice :: others))
    /\ dict_get (lit "text") choice = Some (JStr t).

End Retry.

Import Retry.

(* ===================================================================== *)
(** ** [__init__] *)
(* ===================================================================== *)

Module Startup.

(** [os.environ] once [load_dotenv()] has run. *)
Definition environ : Type := list (pystr * pystr).

(** [os.getenv(name)] *)
Definition getenv (env : environ) (name : pystr) : option pystr :=
  dict_get name env.

(** [os.getenv(name, default)] *)
Definition getenv_default (env : environ) (name default : pystr) : pystr :=
  match getenv env name with
  | Some value => value
  | None => default
  end.

Definition default_model : pystr :=
  lit "deepseek/deepseek-r1-distill-qwen-7b".

Definition missing_credentials : pystr :=
  lit "Missing required API credentials. Please check your .env file.".

(** [not value] for what [os.getenv] gives: [None] or a string. *)
Definition not_set (value : option pystr) : bool :=
  match value with
  | None => true
  | Some s => negb (truthy (VStr s))
  end.

(** [TwitterInsightAgent()]: the agent, or the message of the
    [ValueError] it raises. *)
Definition init (env : environ) : agent + pystr :=
  let bearer_token := getenv env (lit "TWITTER_BEARER_TOKEN") in
  let openrouter_api_key := getenv env (lit "OPENROUTER_API_KEY") in
  let openrouter_model :=
    getenv_default env (lit "OPENROUTER_MODEL") default_model in
  if not_set bearer_token || not_set openrouter_api_key then
    inr missing_credentials
  else
    match bearer_token, openrouter_api_key with
    | Some token, Some key => inl (MkAgent token key openrouter_model)
    | _, _ => inr missing_credentials
    end.

End Startup.

Import Startup.

(* ===================================================================== *)
(** ** [analyze_user], [run] and [main] *)
(* ===================================================================== *)

Module Cli.

(** The marks that open the console lines, as the source file has them. *)
Definition mark_search : pystr := [63743; 252; 238; 231]%N.
Definition mark_cross : pystr := [8218; 249; 229]%N.
Definition mark_tip : pystr := [63743; 252; 237; 176]%N.
Definition mark_empty : pystr := [63743; 252; 236; 8800]%N.
Definition mark_count : pystr := [63743; 252; 236; 228]%N.
Definition mark_robot : pystr := [63743; 252; 167; 241]%N.
Definition mark_chart : pystr := [63743; 252; 236; 224]%N.
Definition mark_wave : pystr := [63743; 252; 235; 227]%N.

(** ["=" * n] *)
Definition ruler (n : nat) : pystr := repeat 61%N n.

(** What can leave [analyze_user] as an exception: an exception that
    [get_user_tweets] let escape, a [result[key]] without that key, or a
    value under [key] of another type than [get_user_tweets] stores
    there (the model stops at that point). *)
Inductive cli_error : Type :=
| Escaped (e : uncaught)
| MissingKey (key : pystr)
| WrongType (key : pystr).

(** What the source leaves to the interpreter: [str.lower], and the text
    [str(e)] of an exception that reaches [run]. *)
Record interpreter : Type := Interpreter {
  lower : pystr -> pystr;
  str_of_exception : cli_error -> pystr
}.

(** ASCII text and its lower-case form; on such text [str.lower] is this
    function. *)
Definition is_ascii (s : pystr) : bool := forallb (fun c => c <? 128)%N s.

Definition ascii_lower (s : pystr) : pystr :=
  map (fun c => if ((65 <=? c) && (c <=? 90))%N then (c + 32)%N else c) s.

Definition lowers_ascii (py : interpreter) : Prop :=
  forall s, is_ascii s = true -> lower py s = ascii_lower s.

(** [result[key]] *)
Definition read_key (result : dict) (key : pystr) : pyval + cli_error :=
  match dict_get key result with
  | Some value => inl value
  | None => inr (MissingKey key)
  end.

Definition analyzing_line (username : pystr) : pystr :=
  newline ++ mark_search ++ lit " Analyzing @"
  ++ lstrip_chars (lit "@") username ++ lit "...".

Definition tip_line : pystr :=
  mark_tip ++ lit " Tip: Wait a few minutes before trying again, or try a different username.".

Definition no_tweets_line (username : pystr) : pystr :=
  mark_empty ++ lit " No tweets found for @"
  ++ lstrip_chars (lit "@") username.

Definition found_line (tweet_count : Z) : pystr :=
  mark_count ++ lit " Found " ++ str_of_int tweet_count
  ++ lit " tweets (less than 5 available)".

Definition last_five_line : pystr :=
  mark_count ++ lit " Analyzing last 5 tweets".

Definition generating_line : pystr :=
  mark_robot ++ lit " Generating insights...".

Definition insights_line (username : pystr) : pystr :=
  newline ++ mark_chart ++ lit " Insights for @"
  ++ lstrip_chars (lit "@") username ++ lit ":".

(** The branch of [analyze_user] for a failed fetch. *)
Definition report_failure (py : interpreter) (result : dict)
  : M (unit + cli_error) :=
  match read_key result (lit "error") with
  | inr err => ret (inr err)
  | inl (VStr error) =>
      print (mark_cross ++ lit " " ++ error) ;;;
      (if contains (lit "rate limit") (lower py error)
       then print tip_line else ret tt) ;;;
      ret (inl tt)
  | inl _ => ret (inr (WrongType (lit "error")))
  end.

(** The rest of [analyze_user] once [tweets] and [tweet_count] are read. *)
Definition report_insights (net : endpoint) (self : agent)
    (username : pystr) (tweets : list pystr) (tweet_count : Z)
  : M (unit + cli_error) :=
  if negb (truthy (VList tweets)) then
    print (no_tweets_line username) ;;;
    ret (inl tt)
  else
    (if (tweet_count <? 5)%Z then print (found_line tweet_count)
     else print last_five_line) ;;;
    print generating_line ;;;
    insights <- generate_insights net self tweets tweet_count ;;
    print (insights_line username) ;;;
    print (ruler 50) ;;;
    print insights ;;;
    print (ruler 50) ;;;
    ret (inl tt).

Definition analyze_user (py : interpreter) (tw : twitter) (net : endpoint)
    (self : agent) (username : pystr) : M (unit + cli_error) :=
  print (analyzing_line username) ;;;
  time_sleep 1 ;;;
  fetched <- get_user_tweets tw username ;;
  match fetched with
  | inr e => ret (inr (Escaped e))
  | inl result =>
      match read_key result (lit "success") with
      | inr err => ret (inr err)
      | inl success =>
          if negb (truthy success) then report_failure py result
          else
            match read_key result (lit "tweets") with
            | inr err => ret (inr err)
            | inl tweets =>
                match read_key result (lit "tweet_count") with
                | inr err => ret (inr err)
                | inl tweet_count =>
                    match tweets, tweet_count with
                    | VList tweets, VInt tweet_count =>
                        report_insights net self username tweets tweet_count
                    | VList _, _ =>
                        ret (inr (WrongType (lit "tweet_count")))
                    | _, _ => ret (inr (WrongType (lit "tweets")))
                    end
                end
            end
      end
  end.

(** What one call of [input] does: it returns the line typed, or it
    raises [KeyboardInterrupt], or it raises another exception (such as
    [EOFError]) whose [str] is [message]. *)
Inductive input_result : Type :=
| Line (text : pystr)
| KeyboardInterrupt
| InputError (message : pystr).

(** The outside of a whole session.  [stdin n] is what the [n]-th call of
    [input] does (counting from 0); [feed n] is the Twitter side as it
    stands while the line of that call is handled.  An interrupt arrives
    only while [input] waits. *)
Record host : Type := Host {
  stdin : nat -> input_result;
  feed : nat -> twitter;
  completions : endpoint;
  python : interpreter
}.

(** The world of a session: the lines read so far, and the world of the
    two collaborators.  The prompt that [input] writes is not logged. *)
Record session : Type := Session {
  reads_made : nat;
  outside : world
}.

Definition start : session := Session 0 fresh.

Definition lift {A : Type} (m : M A) (s : session) : A * session :=
  let (a, w) := m (outside s) in (a, Session (reads_made s) w).

(** [print(line)] in a session. *)
Definition say (line : pystr) (s : session) : session :=
  snd (lift (print line) s).

Definition goodbye_line : pystr := mark_wave ++ lit " Goodbye!".

Definition unexpected_line (message : pystr) : pystr :=
  mark_cross ++ lit " Unexpected error: " ++ message.

Definition exit_words : list pystr := [lit "quit"; lit "exit"; lit "q"].

(** [x in words] *)
Definition word_in (x : pystr) (words : list pystr) : bool :=
  existsb (PyStr.eqb x) words.

(** How far a run of the [while True] loop got. *)
Inductive loop_end : Type :=
| Finished
| StillRunning.

(** The [while True] loop of [run], cut off after [fuel] passes. *)
Fixpoint run_loop (fuel : nat) (h : host) (self : agent) (s : session)
  : loop_end * session :=
  match fuel with
  | O => (StillRunning, s)
  | S fuel' =>
      let n := reads_made s in
      let s1 := Session (S n) (outside s) in
      match stdin h n with
      | KeyboardInterrupt => (Finished, say (newline ++ goodbye_line) s1)
      | InputError message =>
          run_loop fuel' h self (say (unexpected_line message) s1)
      | Line text =>
          let username := strip text in
          if word_in (lower (python h) username) exit_words then
            (Finished, say goodbye_line s1)
          else if negb (truthy (VStr username)) then
            run_loop fuel' h self
                     (say (lit "Please enter a valid username.") s1)
          else
            let (outcome, s2) :=
              lift (analyze_user (python h) (feed h n) (completions h)
                                 self username) s1 in
            match outcome with
            | inl _ => run_loop fuel' h self s2
            | inr e =>
                run_loop fuel' h self
                  (say (unexpected_line (str_of_exception (python h) e)) s2)
            end
      end
  end.





End Cli.

Import Cli.

(* ===================================================================== *)
(** ** Concrete sessions *)
(* ===================================================================== *)

Module Sessions.

(** An interpreter whose [lower] is the ASCII one on every string. *)
Definition sample_python : interpreter :=
  Interpreter ascii_lower (fun _ => lit "error").

Definition sample_env : environ :=
  [ (lit "TWITTER_BEARER_TOKEN", lit "twitter-token");
    (lit "OPENROUTER_API_KEY", lit "openrouter-key") ].

(** A host whose user types the lines of [typed] and then closes the
    input, with the same feed throughout. *)
Definition typing (typed : list pystr) (tw : twitter) (net : endpoint)
  : host :=
  Host (fun n => nth n (map Line typed)
                     (InputError (lit "EOF when reading a line")))
       (fun _ => tw) net sample_python.

Definition two_posts : list tweet :=
  [Tweet (lit "Great day!"); Tweet (lit "Launch went well")].

End Sessions.

Import Sessions.

(* ===================================================================== *)
(** ** One pass through the retry loop *)
(* ===================================================================== *)

Arguments lit : simpl never.
Arguments str_of_int : simpl never.

Section AttemptSteps.

Variables (net : endpoint) (self : agent) (prompt : pystr).

Let rq : request := completion_request self prompt.

(** The world after one more completion request and the events [evs]
    that followed it. *)
Let posted (w : world) (evs : list event) : world :=
  MkWorld (S (posts_made w)) (trace w ++ Post rq :: evs).

(** Open the first pass of the loop up to the answer of the endpoint. *)
Ltac run_pass :=
  cbn [attempt_loop]; unfold bind at 1 2; unfold try_body;
  unfold bind at 1, requests_post; fold rq.

Lemma step_success attempt rest w r result insights :
  post net (posts_made w) rq = inl r ->
  status_code r = 200%Z ->
  json_of r = inl result ->
  first_choice_text result = inl insights ->
  attempt_loop net self prompt (attempt :: rest) w
  = (insights, posted w []).
Proof.
  intros Hpost Hstatus Hjson Htext.
  run_pass. rewrite Hpost, Hstatus.
  cbn [Z.eqb Pos.eqb]. rewrite Hjson, Htext. reflexivity.
Qed.

Lemma step_rate_limited_retry attempt rest w r :
  post net (posts_made w) rq = inl r ->
  status_code r = 429%Z ->
  (attempt < max_retries - 1)%nat ->
  attempt_loop net self prompt (attempt :: rest) w
  = attempt_loop net self prompt rest
      (posted w [Print (rate_limited_notice (delay_of attempt));
                 Sleep (delay_of attempt)]).
Proof.
  intros Hpost Hstatus Hleft.
  apply Nat.ltb_lt in Hleft.
  run_pass. rewrite Hpost, Hstatus.
  cbn [Z.eqb Pos.eqb]. rewrite Hleft.
  unfold bind, print, time_sleep, emit, ret, posted. cbn [posts_made trace].
  rewrite <- !app_assoc. reflexivity.
Qed.

Lemma step_rate_limited_last attempt rest w r :
  post net (posts_made w) rq = inl r ->
  status_code r = 429%Z ->
  (max_retries - 1 <= attempt)%nat ->
  attempt_loop net self prompt (attempt :: rest) w
  = (busy_message, posted w []).
Proof.
  intros Hpost Hstatus Hlast.
  apply Nat.ltb_ge in Hlast.
  run_pass. rewrite Hpost, Hstatus.
  cbn [Z.eqb Pos.eqb]. rewrite Hlast. reflexivity.
Qed.

Lemma step_other_status attempt rest w r :
  post net (posts_made w) rq = inl r ->
  status_code r <> 200%Z ->
  status_code r <> 429%Z ->
  attempt_loop net self prompt (attempt :: rest) w
  = (status_error_message r, posted w []).
Proof.
  intros Hpost H200 H429.
  apply Z.eqb_neq in H200. apply Z.eqb_neq in H429.
  run_pass. rewrite Hpost, H200, H429.
  reflexivity.
Qed.

(** The console line an exception of class [c] prints before a retry. *)
Let notice (c : exn_class) (delay : Z) : pystr :=
  match c with
  | Timeout => timed_out_notice delay
  | _ => connection_error_notice delay
  end.

Lemma step_transport_retry attempt rest w e :
  post net (posts_made w) rq = inr e ->
  class_of e <> OtherException ->
  (attempt < max_retries - 1)%nat ->
  attempt_loop net self prompt (attempt :: rest) w
  = attempt_loop net self prompt rest
      (posted w [Print (notice (class_of e) (delay_of attempt));
                 Sleep (delay_of attempt)]).
Proof.
  intros Hpost Hclass Hleft.
  apply Nat.ltb_lt in Hleft.
  run_pass. rewrite Hpost.
  unfold ret at 1. unfold on_exception.
  destruct (class_of e); try contradiction; rewrite Hleft;
    unfold bind, print, time_sleep, emit, ret, posted, notice;
    cbn [posts_made trace]; rewrite <- !app_assoc; reflexivity.
Qed.

Lemma step_transport_last attempt rest w e :
  post net (posts_made w) rq = inr e ->
  (max_retries - 1 <= attempt)%nat ->
  attempt_loop net self prompt (attempt :: rest) w
  = (match class_of e with
     | Timeout => timed_out_message
     | RequestException => connection_error_message e
     | OtherException => lit "Error generating insights: " ++ str_of e
     end, posted w []).
Proof.
  intros Hpost Hlast.
  apply Nat.ltb_ge in Hlast.
  run_pass. rewrite Hpost.
  unfold ret at 1. unfold on_exception.
  destruct (class_of e); try rewrite Hlast; reflexivity.
Qed.

(** Every pass sends one request, and then either returns or prints,
    sleeps and goes on to the next attempt. *)
Lemma attempt_loop_step attempt rest w :
  (exists value,
      attempt_loop net self prompt (attempt :: rest) w
      = (value, posted w []))
  \/ (exists line delay,
      attempt_loop net self prompt (attempt :: rest) w
      = attempt_loop net self prompt rest
          (posted w [Print line; Sleep delay])).
Proof.
  destruct (post net (posts_made w) rq) as [r | e] eqn:Hpost.
  - destruct (Z.eq_dec (status_code r) 200) as [H200 | H200].
    + destruct (json_of r) as [result | e] eqn:Hjson.
      * destruct (first_choice_text result) as [insights | err] eqn:Htext.
        -- left. eexists.
           apply step_success with (r := r) (result := result);
             [exact Hpost | exact H200 | exact Hjson | exact Htext].
        -- left. eexists. run_pass.
           rewrite Hpost, H200. cbn [Z.eqb Pos.eqb].
           rewrite Hjson, Htext. reflexivity.
      * destruct (class_of e) eqn:Hclass;
          [| | left; eexists; run_pass; rewrite Hpost, H200;
               cbn [Z.eqb Pos.eqb]; rewrite Hjson; unfold ret at 1;
               unfold on_exception; rewrite Hclass; reflexivity];
          (destruct (attempt <? max_retries - 1)%nat eqn:Hleft;
           [ right; do 2 eexists | left; eexists ];
           run_pass; rewrite Hpost, H200; cbn [Z.eqb Pos.eqb];
           rewrite Hjson; unfold ret at 1; unfold on_exception;
           rewrite Hclass, Hleft;
           unfold bind, print, time_sleep, emit, ret;
           cbn [posts_made trace]; rewrite <- ?app_assoc; reflexivity).
    + destruct (Z.eq_dec (status_code r) 429) as [H429 | H429].
      * destruct (Nat.lt_ge_cases attempt (max_retries - 1)) as [Hl | Hl].
        -- right. do 2 eexists.
           apply step_rate_limited_retry with (r := r);
             [exact Hpost | exact H429 | exact Hl].
        -- left. eexists.
           apply step_rate_limited_last with (r := r);
             [exact Hpost | exact H429 | exact Hl].
      * left. eexists. apply step_other_status; [exact Hpost | exact H200 | exact H429].
  - destruct (Nat.lt_ge_cases attempt (max_retries - 1)) as [Hl | Hl].
    + destruct (class_of e) eqn:Hclass.
      * right. do 2 eexists.
        apply step_transport_retry; [exact Hpost | congruence | exact Hl].
      * right. do 2 eexists.
        apply step_transport_retry; [exact Hpost | congruence | exact Hl].
      * left. eexists. run_pass. rewrite Hpost.
        unfold ret at 1. unfold on_exception. rewrite Hclass. reflexivity.
    + left. eexists. apply step_transport_last; [exact Hpost | exact Hl].
Qed.

(** Whatever the endpoint does, the loop only ever sends [rq], it sends
    it at least once when there is an attempt to make, and the world
    counts every request. *)
Lemma attempt_loop_requests attempts :
  forall w, exists evs,
    trace (snd (attempt_loop net self prompt attempts w)) = trace w ++ evs
    /\ posts_made (snd (attempt_loop net self prompt attempts w))
       = (posts_made w + List.length (posts evs))%nat
    /\ (forall q, In q (posts evs) -> q = rq)
    /\ (attempts <> [] -> posts evs <> []).
Proof.
  induction attempts as [| attempt rest IH]; intro w.
  - exists []. cbn. rewrite app_nil_r, Nat.add_0_r. repeat split; tauto.
  - destruct (attempt_loop_step attempt rest w)
      as [[value Hstep] | [line [delay Hstep]]]; rewrite Hstep.
    + exists [Post rq]. cbn. repeat split.
      * now rewrite Nat.add_1_r.
      * intros q [Hq | []]. now symmetry.
      * discriminate.
    + destruct (IH (posted w [Print line; Sleep delay]))
        as [evs [Htrace [Hcount [Hall _]]]].
      exists (Post rq :: Print line :: Sleep delay :: evs).
      rewrite Htrace, Hcount. unfold posted. cbn. repeat split.
      * rewrite <- app_assoc. reflexivity.
      * now rewrite Nat.add_succ_r.
      * intros q [Hq | Hq]; [now symmetry | now apply Hall].
      * discriminate.
Qed.

End AttemptSteps.

(* ===================================================================== *)
(** ** The insight generator: claims *)
(* ===================================================================== *)

(** The first choice of a well-formed completion body, trimmed. *)
Lemma first_choice_text_of_completion fields choice others t :
  dict_get (lit "choices") fields = Some (JArr (JObj choice :: others)) ->
  dict_get (lit "text") choice = Some (JStr t) ->
  first_choice_text (JObj fields) = inl (strip t).
Proof.
  intros Hchoices Htext.
  unfold first_choice_text, and_then, getitem.
  rewrite Hchoices. cbn [nth_error]. rewrite Htext. reflexivity.
Qed.

(** C1.  When the endpoint answers 429 to the first two attempts and 200
    to the third, then for every non-empty tweet list [generate_insights]
    returns the stripped text of the first choice of the 200 response; it
    sends three requests and sleeps exactly twice, 1 second and then 2
    seconds. *)
Theorem retry_twice_then_success
    net self tweets tweet_count w r1 r2 r3 fields choice others t :
  let rq := completion_request self (prompt_of tweets tweet_count) in
  tweets <> [] ->
  post net (posts_made w) rq = inl r1 -> status_code r1 = 429%Z ->
  post net (1 + posts_made w) rq = inl r2 -> status_code r2 = 429%Z ->
  post net (2 + posts_made w) rq = inl r3 -> status_code r3 = 200%Z ->
  json_of r3 = inl (JObj fields) ->
  dict_get (lit "choices") fields = Some (JArr (JObj choice :: others)) ->
  dict_get (lit "text") choice = Some (JStr t) ->
  exists new,
    generate_insights net self tweets tweet_count w
    = (strip t, MkWorld (3 + posts_made w) (trace w ++ new))
    /\ sleeps new = [1%Z; 2%Z]
    /\ posts new = [rq; rq; rq].
Proof.
  intros rq Hne H1 S1 H2 S2 H3 S3 Hjson Hchoices Htext.
  destruct tweets as [| first more]; [contradiction |].
  unfold generate_insights.
  set (prompt := prompt_of (first :: more) tweet_count) in *.
  change (seq 0 max_retries) with [0; 1; 2]%nat.
  eexists. split; [| split].
  - erewrite step_rate_limited_retry;
      [| exact H1 | exact S1 | unfold max_retries; lia].
    erewrite step_rate_limited_retry;
      [| exact H2 | exact S2 | unfold max_retries; lia].
    erewrite step_success;
      [| exact H3 | exact S3 | exact Hjson
       | exact (first_choice_text_of_completion _ Hchoices Htext)].
    cbn [posts_made trace]. rewrite <- !app_assoc. cbn [app Nat.add].
    reflexivity.
  - reflexivity.
  - reflexivity.
Qed.

Lemma retry_twice_then_success_witness :
  exists new,
    generate_insights
      (scripted [inl rate_limited; inl rate_limited]
                (inl (completion (lit "  1. Upbeat launch week. "))))
      sample_agent three_tweets 3 fresh
    = (strip (lit "  1. Upbeat launch week. "),
       MkWorld (3 + posts_made fresh) (trace fresh ++ new))
    /\ sleeps new = [1%Z; 2%Z]
    /\ posts new
       = [completion_request sample_agent (prompt_of three_tweets 3);
          completion_request sample_agent (prompt_of three_tweets 3);
          completion_request sample_agent (prompt_of three_tweets 3)].
Proof.
  apply (@retry_twice_then_success
           (scripted [inl rate_limited; inl rate_limited]
                     (inl (completion (lit "  1. Upbeat launch week. "))))
           sample_agent three_tweets 3 fresh
           rate_limited rate_limited
           (completion (lit "  1. Upbeat launch week. "))
           [ (lit "id", JStr (lit "gen-1"));
             (lit "choices",
              JArr [ JObj [ (lit "text",
                             JStr (lit "  1. Upbeat launch week. ")) ] ]) ]
           [ (lit "text", JStr (lit "  1. Upbeat launch week. ")) ]
           [] (lit "  1. Upbeat launch week. "));
    solve [discriminate | reflexivity].
Defined.

(** C2.  When the endpoint answers 429 to every attempt, then for every
    non-empty tweet list [generate_insights] sends exactly three requests,
    sleeps exactly twice (1 second, then 2 seconds) and returns the fixed
    busy message as an ordinary result. *)
Theorem rate_limit_exhausts_retries net self tweets tweet_count w :
  let rq := completion_request self (prompt_of tweets tweet_count) in
  tweets <> [] ->
  (forall k, (k < max_retries)%nat ->
     exists r, post net (k + posts_made w) rq = inl r
               /\ status_code r = 429%Z) ->
  exists new,
    generate_insights net self tweets tweet_count w
    = (busy_message, MkWorld (3 + posts_made w) (trace w ++ new))
    /\ sleeps new = [1%Z; 2%Z]
    /\ posts new = [rq; rq; rq].
Proof.
  intros rq Hne Hall.
  destruct (Hall 0%nat) as [r1 [H1 S1]]; [unfold max_retries; lia |].
  destruct (Hall 1%nat) as [r2 [H2 S2]]; [unfold max_retries; lia |].
  destruct (Hall 2%nat) as [r3 [H3 S3]]; [unfold max_retries; lia |].
  destruct tweets as [| first more]; [contradiction |].
  unfold generate_insights.
  set (prompt := prompt_of (first :: more) tweet_count) in *.
  change (seq 0 max_retries) with [0; 1; 2]%nat.
  eexists. split; [| split].
  - erewrite step_rate_limited_retry;
      [| exact H1 | exact S1 | unfold max_retries; lia].
    erewrite step_rate_limited_retry;
      [| exact H2 | exact S2 | unfold max_retries; lia].
    erewrite step_rate_limited_last;
      [| exact H3 | exact S3 | unfold max_retries; lia].
    cbn [posts_made trace]. rewrite <- !app_assoc. cbn [app Nat.add].
    reflexivity.
  - reflexivity.
  - reflexivity.
Qed.

Lemma rate_limit_exhausts_retries_witness :
  exists new,
    generate_insights (always (inl rate_limited)) sample_agent
                      three_tweets 3 fresh
    = (busy_message, MkWorld (3 + posts_made fresh) (trace fresh ++ new))
    /\ sleeps new = [1%Z; 2%Z]
    /\ posts new
       = [completion_request sample_agent (prompt_of three_tweets 3);
          completion_request sample_agent (prompt_of three_tweets 3);
          completion_request sample_agent (prompt_of three_tweets 3)].
Proof.
  apply (@rate_limit_exhausts_retries
           (always (inl rate_limited)) sample_agent three_tweets 3 fresh).
  - discriminate.
  - intros k _. exists rate_limited. split; reflexivity.
Defined.

(** C3, as stated, fails: when every attempt times out the result is the
    timeout message, which is not the busy message of the 429 case. *)
Lemma timeouts_do_not_end_in_busy_message :
  (forall k rq, post (always (inr timed_out)) k rq = inr timed_out)
  /\ class_of timed_out = Timeout
  /\ fst (generate_insights (always (inr timed_out)) sample_agent
                            three_tweets 3 fresh)
     = timed_out_message
  /\ fst (generate_insights (always (inr timed_out)) sample_agent
                            three_tweets 3 fresh)
     <> busy_message.
Proof.
  split; [reflexivity |]. split; [reflexivity |].
  split; [vm_compute; reflexivity | vm_compute; discriminate].
Qed.

(** C3, amended.  When each of the three attempts ends in a timeout or in
    another connection error, then for every non-empty tweet list
    [generate_insights] sleeps 1 second and then 2 seconds between the
    attempts and, after the third, returns an ordinary result: the fixed
    timeout message when the last attempt timed out, and otherwise the
    connection-error message that carries the text of the last error. *)
Theorem transport_errors_exhaust_retries
    net self tweets tweet_count w e1 e2 e3 :
  let rq := completion_request self (prompt_of tweets tweet_count) in
  tweets <> [] ->
  post net (posts_made w) rq = inr e1 -> class_of e1 <> OtherException ->
  post net (1 + posts_made w) rq = inr e2 -> class_of e2 <> OtherException ->
  post net (2 + posts_made w) rq = inr e3 -> class_of e3 <> OtherException ->
  exists new,
    generate_insights net self tweets tweet_count w
    = (match class_of e3 with
       | Timeout => timed_out_message
       | _ => lit "Error connecting to AI service: " ++ str_of e3
       end,
       MkWorld (3 + posts_made w) (trace w ++ new))
    /\ sleeps new = [1%Z; 2%Z]
    /\ posts new = [rq; rq; rq].
Proof.
  intros rq Hne H1 C1 H2 C2 H3 C3.
  destruct tweets as [| first more]; [contradiction |].
  unfold generate_insights.
  set (prompt := prompt_of (first :: more) tweet_count) in *.
  change (seq 0 max_retries) with [0; 1; 2]%nat.
  eexists. split; [| split].
  - erewrite step_transport_retry;
      [| exact H1 | exact C1 | unfold max_retries; lia].
    erewrite step_transport_retry;
      [| exact H2 | exact C2 | unfold max_retries; lia].
    erewrite step_transport_last;
      [| exact H3 | unfold max_retries; lia].
    cbn [posts_made trace]. rewrite <- !app_assoc. cbn [app Nat.add].
    f_equal. destruct (class_of e3); [reflexivity | reflexivity | ].
    now contradiction C3.
  - reflexivity.
  - reflexivity.
Qed.

Lemma transport_errors_exhaust_retries_witness :
  exists new,
    generate_insights (scripted [inr timed_out; inr refused] (inr refused))
                      sample_agent three_tweets 3 fresh
    = (lit "Error connecting to AI service: Connection refused",
       MkWorld (3 + posts_made fresh) (trace fresh ++ new))
    /\ sleeps new = [1%Z; 2%Z]
    /\ posts new
       = [completion_request sample_agent (prompt_of three_tweets 3);
          completion_request sample_agent (prompt_of three_tweets 3);
          completion_request sample_agent (prompt_of three_tweets 3)].
Proof.
  apply (@transport_errors_exhaust_retries
           (scripted [inr timed_out; inr refused] (inr refused))
           sample_agent three_tweets 3 fresh timed_out refused refused);
    solve [discriminate | reflexivity].
Defined.

(** C4.  When the endpoint answers the first attempt with a status other
    than 200 and 429, [generate_insights] returns at once, with one request
    sent and no sleep; the result is the error string built from the
    status code and the body of that response. *)
Theorem other_status_fails_without_retry net self tweets tweet_count w r :
  let rq := completion_request self (prompt_of tweets tweet_count) in
  tweets <> [] ->
  post net (posts_made w) rq = inl r ->
  status_code r <> 200%Z ->
  status_code r <> 429%Z ->
  generate_insights net self tweets tweet_count w
  = (lit "Error generating insights: " ++ str_of_int (status_code r)
     ++ lit " - " ++ text r,
     MkWorld (1 + posts_made w) (trace w ++ [Post rq]))
  /\ sleeps [Post rq] = []
  /\ mentions (fst (generate_insights net self tweets tweet_count w))
              (str_of_int (status_code r))
  /\ mentions (fst (generate_insights net self tweets tweet_count w))
              (text r).
Proof.
  intros rq Hne Hpost H200 H429.
  destruct tweets as [| first more]; [contradiction |].
  unfold generate_insights.
  set (prompt := prompt_of (first :: more) tweet_count) in *.
  change (seq 0 max_retries) with [0; 1; 2]%nat.
  erewrite step_other_status; [| exact Hpost | exact H200 | exact H429].
  unfold status_error_message. cbn [fst].
  repeat split.
  - exists (lit "Error generating insights: "), (lit " - " ++ text r).
    reflexivity.
  - exists (lit "Error generating insights: "
            ++ str_of_int (status_code r) ++ lit " - "), [].
    rewrite app_nil_r, <- !app_assoc. reflexivity.
Qed.

Lemma other_status_fails_without_retry_witness :
  generate_insights (always (inl server_error)) sample_agent
                    three_tweets 3 fresh
  = (lit "Error generating insights: " ++ str_of_int 500
     ++ lit " - " ++ lit "Internal Server Error",
     MkWorld (1 + posts_made fresh)
             (trace fresh
              ++ [Post (completion_request sample_agent
                                           (prompt_of three_tweets 3))]))
  /\ sleeps [Post (completion_request sample_agent
                                      (prompt_of three_tweets 3))] = []
  /\ mentions (fst (generate_insights (always (inl server_error))
                                      sample_agent three_tweets 3 fresh))
              (str_of_int 500)
  /\ mentions (fst (generate_insights (always (inl server_error))
                                      sample_agent three_tweets 3 fresh))
              (lit "Internal Server Error").
Proof.
  apply (@other_status_fails_without_retry
           (always (inl server_error)) sample_agent three_tweets 3 fresh
           server_error);
    solve [discriminate | reflexivity].
Defined.

(** C9.  For the empty tweet list [generate_insights] returns
    "No tweets available for analysis." and leaves the world as it found
    it: no prompt is built, no request is sent, nothing sleeps. *)
Theorem no_tweets_no_request net self tweet_count w :
  generate_insights net self [] tweet_count w
  = (lit "No tweets available for analysis.", w).
Proof. reflexivity. Qed.

(* ===================================================================== *)
(** ** The prompt *)
(* ===================================================================== *)

Lemma mentions_refl s : mentions s s.
Proof. exists [], []. now rewrite app_nil_r. Qed.

Lemma mentions_inside before after s needle :
  mentions s needle -> mentions (before ++ s ++ after) needle.
Proof.
  intros [b [a ->]]. exists (before ++ b), (a ++ after).
  now rewrite <- !app_assoc.
Qed.

Lemma mentions_skip before s needle :
  mentions s needle -> mentions (before ++ s) needle.
Proof.
  intros H. rewrite <- (app_nil_r s). now apply mentions_inside.
Qed.

Lemma mentions_keep after s needle :
  mentions s needle -> mentions (s ++ after) needle.
Proof. intros H. now apply (mentions_inside [] after). Qed.

Lemma mentions_join_head sep p rest : mentions (join sep (p :: rest)) p.
Proof.
  destruct rest as [| q rest]; cbn [join].
  - apply mentions_refl.
  - exists [], (sep ++ join sep (q :: rest)). reflexivity.
Qed.

Lemma mentions_join_tail sep p rest needle :
  mentions (join sep rest) needle -> rest <> [] ->
  mentions (join sep (p :: rest)) needle.
Proof.
  intros H Hne. destruct rest as [| q rest]; [contradiction |].
  change (join sep (p :: q :: rest)) with (p ++ sep ++ join sep (q :: rest)).
  now do 2 apply mentions_skip.
Qed.

(** Every tweet has its numbered line in the joined text, whatever the
    list and wherever the numbering starts. *)
Lemma tweets_text_mentions_line tweets :
  forall start i tweet,
    nth_error tweets i = Some tweet ->
    mentions (join newline (map tweet_line (enumerate_from start tweets)))
             (tweet_line ((start + i)%nat, tweet)).
Proof.
  induction tweets as [| first more IH]; intros start i tweet Hnth.
  - destruct i; discriminate.
  - destruct i as [| i]; cbn [nth_error] in Hnth.
    + injection Hnth as ->. rewrite Nat.add_0_r.
      cbn [enumerate_from map]. apply mentions_join_head.
    + cbn [enumerate_from map]. apply mentions_join_tail.
      * rewrite <- Nat.add_succ_comm. now apply IH.
      * destruct more; [destruct i; discriminate | discriminate].
Qed.

(** The prompt of every call contains the line "Tweet i+1: text" of each
    of its tweets. *)
Lemma prompt_mentions_every_tweet tweets tweet_count i tweet :
  nth_error tweets i = Some tweet ->
  mentions (prompt_of tweets tweet_count)
           (lit "Tweet " ++ str_of_int (Z.of_nat i + 1) ++ lit ": " ++ tweet).
Proof.
  intros Hnth. unfold prompt_of, build_prompt, tweets_text, enumerate.
  do 7 apply mentions_skip. apply mentions_keep.
  apply (tweets_text_mentions_line tweets 0 i Hnth).
Qed.

(** C7.  For the tweets "Great day!", "Launch went well" and
    "Feedback welcome" with count 3, the prompt has the three texts on
    the lines "Tweet 1: ...", "Tweet 2: ..." and "Tweet 3: ...", in that
    order, and it asks for exactly 3 insights as a list numbered 1 to 3. *)
Theorem scenario_prompt_lines :
  lines (prompt_of three_tweets 3)
  = [ lit "Analyze the following 3 tweets and generate exactly 3 concise, actionable insights. Focus on sentiment, main topics, trends, or notable patterns. Each insight must be unique and specific to the content provided. Format your response as a numbered list (1-3).";
      [];
      lit "Tweets to analyze:";
      lit "Tweet 1: Great day!";
      lit "Tweet 2: Launch went well";
      lit "Tweet 3: Feedback welcome";
      [];
      lit "Requirements:";
      lit "- Each insight should be 1-2 sentences";
      lit "- Focus on actionable observations";
      lit "- Avoid vague statements";
      lit "- Be specific to the tweet content";
      lit "- Number each insight (1, 2, 3)" ]
  /\ contains (lit "generate exactly 3 concise, actionable insights")
              (prompt_of three_tweets 3) = true
  /\ contains (lit "Format your response as a numbered list (1-3).")
              (prompt_of three_tweets 3) = true.
Proof. repeat split; vm_compute; reflexivity. Qed.

(* ===================================================================== *)
(** ** Two calls in a row *)
(* ===================================================================== *)

(** C8, as stated, fails on the empty list: neither of two calls sends a
    completion request. *)
Lemma empty_list_sends_no_request :
  posts (trace (snd (generate_insights (always (inl (completion (lit "1."))))
                                       sample_agent [] 0 fresh)))
  = []
  /\ posts (trace (snd (generate_insights
                          (always (inl (completion (lit "1."))))
                          sample_agent [] 0
                          (snd (generate_insights
                                  (always (inl (completion (lit "1."))))
                                  sample_agent [] 0 fresh)))))
     = [].
Proof. split; reflexivity. Qed.

(** C8, amended.  For every non-empty tweet list and every count, two
    calls of [generate_insights] in a row with the same arguments each
    send at least one completion request of their own, whatever the first
    call returned; every request of either call is the same request, and
    its prompt is the prompt of those arguments, character for character. *)
Theorem repeated_call_same_prompt_new_request
    net self tweets tweet_count w :
  tweets <> [] ->
  let first := generate_insights net self tweets tweet_count w in
  let second := generate_insights net self tweets tweet_count (snd first) in
  exists ev1 ev2,
    trace (snd first) = trace w ++ ev1
    /\ trace (snd second) = trace (snd first) ++ ev2
    /\ posts ev1 <> [] /\ posts ev2 <> []
    /\ posts_made (snd second)
       = (posts_made w + List.length (posts ev1)
          + List.length (posts ev2))%nat
    /\ forall q, In q (posts ev1 ++ posts ev2) ->
         q = completion_request self (prompt_of tweets tweet_count)
         /\ dict_get (lit "prompt") (data q)
            = Some (JStr (prompt_of tweets tweet_count)).
Proof.
  intros Hne first second. subst first second.
  destruct tweets as [| t ts]; [contradiction |].
  unfold generate_insights.
  set (prompt := prompt_of (t :: ts) tweet_count).
  destruct (attempt_loop_requests net self prompt (seq 0 max_retries) w)
    as [ev1 [T1 [N1 [A1 P1]]]].
  destruct (attempt_loop_requests net self prompt (seq 0 max_retries)
              (snd (attempt_loop net self prompt (seq 0 max_retries) w)))
    as [ev2 [T2 [N2 [A2 P2]]]].
  exists ev1, ev2. repeat split.
  - exact T1.
  - exact T2.
  - apply P1. discriminate.
  - apply P2. discriminate.
  - rewrite N2, N1. reflexivity.
  - apply in_app_or in H. destruct H; [now apply A1 | now apply A2].
  - apply in_app_or in H.
    assert (q = completion_request self prompt) as ->
        by (destruct H; [now apply A1 | now apply A2]).
    reflexivity.
Qed.

Lemma repeated_call_same_prompt_new_request_witness :
  exists ev1 ev2,
    trace (snd (generate_insights (always (inl (completion (lit "1."))))
                                  sample_agent three_tweets 3 fresh))
    = trace fresh ++ ev1
    /\ trace (snd (generate_insights
                     (always (inl (completion (lit "1."))))
                     sample_agent three_tweets 3
                     (snd (generate_insights
                             (always (inl (completion (lit "1."))))
                             sample_agent three_tweets 3 fresh))))
       = trace (snd (generate_insights
                       (always (inl (completion (lit "1."))))
                       sample_agent three_tweets 3 fresh)) ++ ev2
    /\ posts ev1 <> [] /\ posts ev2 <> []
    /\ posts_made (snd (generate_insights
                          (always (inl (completion (lit "1."))))
                          sample_agent three_tweets 3
                          (snd (generate_insights
                                  (always (inl (completion (lit "1."))))
                                  sample_agent three_tweets 3 fresh))))
       = (posts_made fresh + List.length (posts ev1)
          + List.length (posts ev2))%nat
    /\ forall q, In q (posts ev1 ++ posts ev2) ->
         q = completion_request sample_agent (prompt_of three_tweets 3)
         /\ dict_get (lit "prompt") (data q)
            = Some (JStr (prompt_of three_tweets 3)).
Proof.
  apply (@repeated_call_same_prompt_new_request
           (always (inl (completion (lit "1."))))
           sample_agent three_tweets 3 fresh).
  discriminate.
Defined.

(* ===================================================================== *)
(** ** The feed fetcher *)
(* ===================================================================== *)

Lemma failure_success error user_info :
  dict_get (lit "success") (failure error user_info) = Some (VBool false).
Proof. reflexivity. Qed.

Lemma failure_error error user_info :
  dict_get (lit "error") (failure error user_info) = Some (VStr error).
Proof. reflexivity. Qed.

Lemma failure_tweets error user_info :
  dict_get (lit "tweets") (failure error user_info) = Some (VList []).
Proof. reflexivity. Qed.

(** What the handlers return does not depend on the events so far. *)
Lemma on_error_result tw e w w' :
  fst (on_error tw e w) = fst (on_error tw e w').
Proof.
  destruct e as [e_response | | | message]; try reflexivity.
  unfold on_error. destruct (read_reset_time e_response) as [v | err];
    [| reflexivity].
  unfold rate_limit_message.
  destruct (truthy v); [| reflexivity].
  destruct v; try reflexivity.
  cbv [bind time_time emit ret].
  destruct (z - now tw >? 0)%Z; reflexivity.
Qed.

(** When the [try] block raises, the result is the handler's. *)
Lemma get_user_tweets_raises tw username e w :
  raises tw username e ->
  fst (get_user_tweets tw username w) = fst (on_error tw e w).
Proof.
  intros [Hlookup | [user_info [Hlookup [Hpublic Hlist]]]];
    unfold get_user_tweets, client_get_user; cbv [bind emit ret];
    rewrite Hlookup.
  - apply on_error_result.
  - rewrite Hpublic.
    unfold client_get_users_tweets. rewrite Hlist. apply on_error_result.
Qed.

(** When [read_reset_time] ends without an error, [reset_time] is [None],
    the empty string or an [int]. *)
Lemma read_reset_time_values e_response v :
  read_reset_time e_response = inl v ->
  v = VNone \/ v = VStr [] \/ exists reset, v = VInt reset.
Proof.
  unfold read_reset_time.
  destruct e_response as [response |]; [| intros [= <-]; now left].
  destruct (x_rate_limit_reset response) as [h |]; [| intros [= <-]; now left].
  destruct (raw h) as [| c rest] eqn:Hraw.
  - intros [= <-]. right. now left.
  - cbn [truthy]. unfold PyStr.eqb.
    destruct (list_eq_dec N.eq_dec (c :: rest) []) as [Heq | _];
      [discriminate Heq |].
    cbn [negb]. destruct (as_int h) as [z |]; [| discriminate].
    intros [= <-]. right. right. now exists z.
Qed.

(** C5, as stated, fails: a reset timestamp that is not in the future is
    available, and the message is the 15-minute one, not the difference. *)
Lemma stale_reset_gives_generic_wait :
  read_reset_time
    (Some (HttpResponse
             (Some (HeaderValue (lit "1700000000") (Some 1700000000%Z)))))
  = inl (VInt 1700000000)
  /\ fst (get_user_tweets
            (lookup_gives
               (inr (too_many_requests (lit "1700000000") 1700000000))
               1700000005)
            (lit "@jack") fresh)
     = inl (failure generic_wait_message VNone)
  /\ generic_wait_message
     <> wait_seconds_message (1700000000 - 1700000005).
Proof.
  split; [reflexivity |].
  split; [vm_compute; reflexivity | vm_compute; discriminate].
Qed.

(** C5, amended.  When the fetch fails with a rate-limit error whose reset
    header can be read, the result has [success] false and no tweets, and
    its error message reports [reset_epoch - now] seconds when the reset
    timestamp is a non-zero integer with [reset_epoch - now > 0]; when
    there is no timestamp, or it is zero or not in the future, the message
    is the generic 15-minute one. *)
Theorem rate_limit_wait_message tw username w e_response reset_time :
  raises tw username (TooManyRequests e_response) ->
  read_reset_time e_response = inl reset_time ->
  exists d error,
    fst (get_user_tweets tw username w) = inl d
    /\ dict_get (lit "success") d = Some (VBool false)
    /\ dict_get (lit "tweets") d = Some (VList [])
    /\ dict_get (lit "error") d = Some (VStr error)
    /\ (forall reset,
          reset_time = VInt reset -> reset <> 0%Z -> (reset - now tw > 0)%Z ->
          error = wait_seconds_message (reset - now tw))
    /\ ((forall reset,
           reset_time = VInt reset ->
           reset = 0%Z \/ (reset - now tw <= 0)%Z) ->
        error = generic_wait_message).
Proof.
  intros Hraise Hread.
  rewrite (get_user_tweets_raises w Hraise).
  unfold on_error. rewrite Hread.
  unfold bind at 1.
  destruct (rate_limit_message tw reset_time w) as [error w1] eqn:Hmsg.
  exists (failure error VNone), error.
  split; [reflexivity |].
  split; [apply failure_success |].
  split; [apply failure_tweets |].
  split; [apply failure_error |].
  assert (Herror : error = fst (rate_limit_message tw reset_time w))
    by now rewrite Hmsg.
  clear Hmsg. subst error.
  destruct (read_reset_time_values _ Hread) as [-> | [-> | [reset ->]]].
  - split; [intros reset [=] | reflexivity].
  - split; [intros reset [=] | reflexivity].
  - unfold rate_limit_message. cbn [truthy].
    destruct (Z.eqb_spec reset 0) as [-> | Hnz]; cbn [negb].
    + split; [intros r [= <-] Hr; now contradiction Hr | reflexivity].
    + cbv [bind time_time emit ret fst].
      destruct (Z.gtb_spec (reset - now tw) 0) as [Hpos | Hneg].
      * split; [intros r [= <-] _ _; reflexivity |].
        intros Hall. destruct (Hall reset eq_refl); [contradiction | lia].
      * split; [intros r [= <-] _ Hgt; lia | reflexivity].
Qed.

Lemma rate_limit_wait_message_witness :
  exists d error,
    fst (get_user_tweets
           (lookup_gives
              (inr (too_many_requests (lit "1700000060") 1700000060))
              1700000000)
           (lit "@jack") fresh) = inl d
    /\ dict_get (lit "success") d = Some (VBool false)
    /\ dict_get (lit "tweets") d = Some (VList [])
    /\ dict_get (lit "error") d = Some (VStr error)
    /\ (forall reset,
          VInt 1700000060 = VInt reset -> reset <> 0%Z ->
          (reset - 1700000000 > 0)%Z ->
          error = wait_seconds_message (reset - 1700000000))
    /\ ((forall reset,
           VInt 1700000060 = VInt reset ->
           reset = 0%Z \/ (reset - 1700000000 <= 0)%Z) ->
        error = generic_wait_message).
Proof.
  apply (@rate_limit_wait_message
           (lookup_gives
              (inr (too_many_requests (lit "1700000060") 1700000060))
              1700000000)
           (lit "@jack") fresh
           (Some (HttpResponse
                    (Some (HeaderValue (lit "1700000060")
                                       (Some 1700000060%Z)))))
           (VInt 1700000060)).
  - left. reflexivity.
  - reflexivity.
Defined.



(** Every result of the handlers is a failure dictionary without a user,
    or an escaping error. *)
Lemma on_error_shape tw e w :
  (exists error, fst (on_error tw e w) = inl (failure error VNone))
  \/ (exists err, fst (on_error tw e w) = inr err).
Proof.
  destruct e as [e_response | | | message];
    try (left; eexists; reflexivity).
  unfold on_error. destruct (read_reset_time e_response) as [v | err].
  - left. unfold bind at 1.
    destruct (rate_limit_message tw v w) as [error w1].
    now exists error.
  - right. now exists err.
Qed.

(** Every run of [get_user_tweets] ends in one of three ways. *)
Lemma get_user_tweets_shape tw username w :
  (exists err, fst (get_user_tweets tw username w) = inr err)
  \/ (exists error user_info,
        fst (get_user_tweets tw username w) = inl (failure error user_info))
  \/ (exists user_info data,
        get_users_tweets tw (tweets_query_of user_info) = inl data
        /\ fst (get_user_tweets tw username w)
           = inl (found (texts_of data) user_info)).
Proof.
  unfold get_user_tweets, client_get_user. cbv [bind emit ret].
  destruct (get_user tw (lstrip_chars (lit "@") username))
    as [[user_info |] | e]; cbv beta iota.
  - destruct (is_protected user_info).
    + right. left. do 2 eexists. reflexivity.
    + unfold client_get_users_tweets. cbv [bind emit ret].
      destruct (get_users_tweets tw (tweets_query_of user_info))
        as [data | e] eqn:Hlist; cbv beta iota.
      * right. right. exists user_info, data. split; [exact Hlist | reflexivity].
      * match goal with
        | |- context [on_error tw e ?w1] =>
            destruct (on_error_shape tw e w1) as [[error H] | [err H]]
        end.
        -- right. left. exists error, VNone. exact H.
        -- left. exists err. exact H.
  - right. left. do 2 eexists. reflexivity.
  - match goal with
    | |- context [on_error tw e ?w1] =>
        destruct (on_error_shape tw e w1) as [[error H] | [err H]]
    end.
    + right. left. exists error, VNone. exact H.
    + left. exists err. exact H.
Qed.

Lemma texts_of_length data :
  List.length (texts_of data)
  = match data with Some listed => List.length listed | None => 0%nat end.
Proof.
  destruct data as [[| t ts] |]; try reflexivity.
  unfold texts_of. now rewrite length_map.
Qed.

(** C10.  Provided the upstream never lists more posts than the request's
    [max_results], every record that [get_user_tweets] returns with
    [success] true has [tweet_count] equal to the length of its tweet
    list, that list has at most 5 elements, and the record has no [error]
    entry; every record returned with [success] false has an empty tweet
    list. *)
Theorem fetch_result_invariant tw username w d :
  (forall q listed,
     get_users_tweets tw q = inl (Some listed) ->
     (Z.of_nat (List.length listed) <= max_results q)%Z) ->
  fst (get_user_tweets tw username w) = inl d ->
  (dict_get (lit "success") d = Some (VBool true) ->
   exists tweets,
     dict_get (lit "tweets") d = Some (VList tweets)
     /\ dict_get (lit "tweet_count") d
        = Some (VInt (Z.of_nat (List.length tweets)))
     /\ (List.length tweets <= 5)%nat
     /\ dict_get (lit "error") d = None)
  /\ (dict_get (lit "success") d = Some (VBool false) ->
      dict_get (lit "tweets") d = Some (VList []))
  /\ (exists b, dict_get (lit "success") d = Some (VBool b)).
Proof.
  intros Hupstream Hrun.
  destruct (get_user_tweets_shape tw username w)
    as [[err H] | [[error [user_info H]] | [user_info [data [Hlist H]]]]];
    rewrite H in Hrun.
  - discriminate.
  - injection Hrun as <-. split; [| split].
    + rewrite failure_success. discriminate.
    + intros _. apply failure_tweets.
    + exists false. apply failure_success.
  - injection Hrun as <-. split; [| split].
    + intros _. exists (texts_of data).
      split; [reflexivity |]. split; [reflexivity |].
      split; [| reflexivity].
      rewrite texts_of_length. destruct data as [listed |]; [| lia].
      specialize (Hupstream _ _ Hlist). cbn [tweets_query_of max_results] in Hupstream.
      lia.
    + discriminate.
    + exists true. reflexivity.
Qed.

Lemma fetch_result_invariant_witness :
  (dict_get (lit "success")
            (found [lit "Great day!"; lit "Launch went well"] (User 12 IsNone))
   = Some (VBool true) ->
   exists tweets,
     dict_get (lit "tweets")
              (found [lit "Great day!"; lit "Launch went well"]
                     (User 12 IsNone))
     = Some (VList tweets)
     /\ dict_get (lit "tweet_count")
                 (found [lit "Great day!"; lit "Launch went well"]
                        (User 12 IsNone))
        = Some (VInt (Z.of_nat (List.length tweets)))
     /\ (List.length tweets <= 5)%nat
     /\ dict_get (lit "error")
                 (found [lit "Great day!"; lit "Launch went well"]
                        (User 12 IsNone))
        = None)
  /\ (dict_get (lit "success")
               (found [lit "Great day!"; lit "Launch went well"]
                      (User 12 IsNone))
      = Some (VBool false) ->
      dict_get (lit "tweets")
               (found [lit "Great day!"; lit "Launch went well"]
                      (User 12 IsNone))
      = Some (VList []))
  /\ (exists b,
        dict_get (lit "success")
                 (found [lit "Great day!"; lit "Launch went well"]
                        (User 12 IsNone))
        = Some (VBool b)).
Proof.
  apply (@fetch_result_invariant
           (public_feed [Tweet (lit "Great day!");
                         Tweet (lit "Launch went well")])
           (lit "@jack") fresh
           (found [lit "Great day!"; lit "Launch went well"]
                  (User 12 IsNone))).
  - intros q listed. cbn [public_feed get_users_tweets].
    destruct (Z.leb_spec 0 (max_results q)); [| discriminate].
    intros [= <-]. rewrite length_firstn. lia.
  - reflexivity.
Defined.

(* ===================================================================== *)
(** ** The retry loop in general *)
(* ===================================================================== *)

Section RetryBounds.

Variables (net : endpoint) (self : agent) (prompt : pystr).

Let rq : request := completion_request self prompt.

Let posted (w : world) (evs : list event) : world :=
  MkWorld (S (posts_made w)) (trace w ++ Post rq :: evs).

Ltac open_pass :=
  cbn [attempt_loop]; unfold bind at 1 2; unfold try_body;
  unfold bind at 1, requests_post; fold rq.

(** A pass returns, or (only when attempts remain) prints one line,
    sleeps [delay_of attempt] and goes on; which of the two, and with
    what value or line, does not depend on the attempts that follow. *)
Lemma pass_outcome attempt w :
  (exists value, forall rest,
      attempt_loop net self prompt (attempt :: rest) w
      = (value, posted w []))
  \/ ((attempt < max_retries - 1)%nat
      /\ exists line, forall rest,
          attempt_loop net self prompt (attempt :: rest) w
          = attempt_loop net self prompt rest
              (posted w [Print line; Sleep (delay_of attempt)])).
Proof.
  destruct (post net (posts_made w) rq) as [r | e] eqn:Hpost.
  - destruct (Z.eq_dec (status_code r) 200) as [H200 | H200].
    + destruct (json_of r) as [result | e] eqn:Hjson.
      * destruct (first_choice_text result) as [insights | err] eqn:Htext.
        -- left. eexists. intros rest.
           apply step_success with (r := r) (result := result);
             [exact Hpost | exact H200 | exact Hjson | exact Htext].
        -- left. eexists. intros rest. open_pass.
           rewrite Hpost, H200. cbn [Z.eqb Pos.eqb].
           rewrite Hjson, Htext. reflexivity.
      * destruct (class_of e) eqn:Hclass;
          [| | left; eexists; intros rest; open_pass; rewrite Hpost, H200;
               cbn [Z.eqb Pos.eqb]; rewrite Hjson; unfold ret at 1;
               unfold on_exception; rewrite Hclass; reflexivity];
          (destruct (attempt <? max_retries - 1)%nat eqn:Hleft;
           [ right; split; [now apply Nat.ltb_lt |]; eexists; intros rest
           | left; eexists; intros rest ];
           open_pass; rewrite Hpost, H200; cbn [Z.eqb Pos.eqb];
           rewrite Hjson; unfold ret at 1; unfold on_exception;
           rewrite Hclass, Hleft;
           unfold bind, print, time_sleep, emit, ret;
           cbn [posts_made trace]; rewrite <- ?app_assoc; reflexivity).
    + destruct (Z.eq_dec (status_code r) 429) as [H429 | H429].
      * destruct (Nat.lt_ge_cases attempt (max_retries - 1)) as [Hl | Hl].
        -- right. split; [exact Hl |]. eexists. intros rest.
           apply step_rate_limited_retry with (r := r);
             [exact Hpost | exact H429 | exact Hl].
        -- left. eexists. intros rest.
           apply step_rate_limited_last with (r := r);
             [exact Hpost | exact H429 | exact Hl].
      * left. eexists. intros rest.
        apply step_other_status; [exact Hpost | exact H200 | exact H429].
  - destruct (Nat.lt_ge_cases attempt (max_retries - 1)) as [Hl | Hl].
    + destruct (class_of e) eqn:Hclass.
      * right. split; [exact Hl |]. eexists. intros rest.
        apply step_transport_retry; [exact Hpost | congruence | exact Hl].
      * right. split; [exact Hl |]. eexists. intros rest.
        apply step_transport_retry; [exact Hpost | congruence | exact Hl].
      * left. eexists. intros rest. open_pass. rewrite Hpost.
        unfold ret at 1. unfold on_exception. rewrite Hclass. reflexivity.
    + left. eexists. intros rest.
      apply step_transport_last; [exact Hpost | exact Hl].
Qed.

(** After a transient answer with attempts left, the loop sleeps
    [delay_of attempt] and goes on. *)
Lemma step_transient attempt rest w :
  transient (post net (posts_made w) rq) ->
  (attempt < max_retries - 1)%nat ->
  exists line,
    attempt_loop net self prompt (attempt :: rest) w
    = attempt_loop net self prompt rest
        (posted w [Print line; Sleep (delay_of attempt)]).
Proof.
  intros Htransient Hleft.
  destruct (post net (posts_made w) rq) as [r | e] eqn:Hpost;
    cbn [transient] in Htransient.
  - eexists. apply step_rate_limited_retry with (r := r);
      [exact Hpost | exact Htransient | exact Hleft].
  - eexists. apply step_transport_retry;
      [exact Hpost | exact Htransient | exact Hleft].
Qed.

(** A completing answer ends the loop with the stripped text. *)
Lemma step_completes attempt rest w t :
  completes (post net (posts_made w) rq) t ->
  attempt_loop net self prompt (attempt :: rest) w
  = (strip t, posted w []).
Proof.
  intros [r [fields [choice [others [Hpost [H200 [Hjson [Hc Ht]]]]]]]].
  apply step_success with (r := r) (result := JObj fields);
    [exact Hpost | exact H200 | exact Hjson
     | exact (first_choice_text_of_completion _ Hc Ht)].
Qed.

End RetryBounds.



(** X2.  The loop over [range(max_retries)] always ends with a [return]
    inside the loop: attempts listed after the third are never run, so
    the statement that follows the loop is never reached. *)
Theorem third_attempt_always_returns net self prompt extra w :
  attempt_loop net self prompt (seq 0 max_retries ++ extra) w
  = attempt_loop net self prompt (seq 0 max_retries) w.
Proof.
  change (seq 0 max_retries) with [0; 1; 2]%nat. cbn [app].
  destruct (pass_outcome net self prompt 0 w) as [[v H0] | [_ [l0 H0]]];
    rewrite !H0; clear H0; [reflexivity |].
  match goal with |- context [attempt_loop _ _ _ _ ?w1] =>
    destruct (pass_outcome net self prompt 1 w1) as [[v H1] | [_ [l1 H1]]];
    rewrite !H1; clear H1; [reflexivity |]
  end.
  match goal with |- context [attempt_loop _ _ _ _ ?w2] =>
    destruct (pass_outcome net self prompt 2 w2) as [[v H2] | [Hl _]];
    [rewrite !H2; reflexivity | unfold max_retries in Hl; lia]
  end.
Qed.

(** X3.  [result['choices'][0]['text'].strip()] yields a string exactly
    when the body is an object whose ["choices"] is a list that starts
    with an object whose ["text"] is a string; the string is that text,
    stripped.  Every other body raises a built-in error. *)
Theorem first_choice_text_succeeds_iff result s :
  first_choice_text result = inl s
  <-> exists fields choice others t,
        result = JObj fields
        /\ dict_get (lit "choices") fields
           = Some (JArr (JObj choice :: others))
        /\ dict_get (lit "text") choice = Some (JStr t)
        /\ s = strip t.
Proof.
  split.
  - unfold first_choice_text, and_then.
    destruct result as [| | | | | | fields]; try discriminate.
    cbn [getitem].
    destruct (dict_get (lit "choices") fields) as [choices |] eqn:Hc;
      [| discriminate].
    destruct choices as [| | | | text | items |]; try discriminate.
    + cbn [getitem]. destruct (nth_error text 0); discriminate.
    + cbn [getitem]. destruct items as [| x others]; [discriminate |].
      cbn [nth_error].
      destruct x as [| | | | | | choice]; try discriminate.
      cbn [getitem].
      destruct (dict_get (lit "text") choice) as [v |] eqn:Ht;
        [| discriminate].
      destruct v as [| | | | t | |]; try discriminate.
      cbn [call_strip]. intros [= <-].
      now exists fields, choice, others, t.
  - intros [fields [choice [others [t [-> [Hc [Ht ->]]]]]]].
    exact (first_choice_text_of_completion _ Hc Ht).
Qed.

Lemma first_choice_text_succeeds_iff_witness :
  first_choice_text
    (JObj [ (lit "choices",
             JArr [ JObj [ (lit "text", JStr (lit " 1. Calm. ")) ] ]) ])
  = inl (strip (lit " 1. Calm. ")).
Proof.
  apply (proj2 (@first_choice_text_succeeds_iff
                  (JObj [ (lit "choices",
                           JArr [ JObj [ (lit "text",
                                          JStr (lit " 1. Calm. ")) ] ]) ])
                  (strip (lit " 1. Calm. ")))).
  exists [ (lit "choices",
            JArr [ JObj [ (lit "text", JStr (lit " 1. Calm. ")) ] ]) ],
    [ (lit "text", JStr (lit " 1. Calm. ")) ], [], (lit " 1. Calm. ").
  repeat split.
Defined.

(** X4.  A 200 response whose body raises a built-in error in the
    extraction is not retried: the call returns
    "Error generating insights: " followed by the text of that error,
    after this one request and without sleeping. *)
Theorem malformed_completion_is_not_retried
    net self tweets tweet_count w r result err :
  let rq := completion_request self (prompt_of tweets tweet_count) in
  tweets <> [] ->
  post net (posts_made w) rq = inl r ->
  status_code r = 200%Z ->
  json_of r = inl result ->
  first_choice_text result = inr err ->
  generate_insights net self tweets tweet_count w
  = (lit "Error generating insights: " ++ describe net err,
     MkWorld (1 + posts_made w) (trace w ++ [Post rq])).
Proof.
  intros rq Hne Hpost H200 Hjson Htext.
  destruct tweets as [| first more]; [contradiction |].
  unfold generate_insights.
  set (prompt := prompt_of (first :: more) tweet_count) in *.
  change (seq 0 max_retries) with [0; 1; 2]%nat.
  cbn [attempt_loop]. unfold bind at 1 2. unfold try_body.
  unfold bind at 1, requests_post. fold rq.
  rewrite Hpost, H200. cbn [Z.eqb Pos.eqb]. rewrite Hjson, Htext.
  reflexivity.
Qed.

Lemma malformed_completion_is_not_retried_witness :
  generate_insights
    (always (inl (Response 200 (lit "{}") (inl (JObj [])))))
    sample_agent three_tweets 3 fresh
  = (lit "Error generating insights: "
     ++ describe (always (inl (Response 200 (lit "{}") (inl (JObj [])))))
                 (KeyError (Key (lit "choices"))),
     MkWorld (1 + posts_made fresh)
             (trace fresh
              ++ [Post (completion_request sample_agent
                                           (prompt_of three_tweets 3))])).
Proof.
  apply (@malformed_completion_is_not_retried
           (always (inl (Response 200 (lit "{}") (inl (JObj [])))))
           sample_agent three_tweets 3 fresh
           (Response 200 (lit "{}") (inl (JObj []))) (JObj [])
           (KeyError (Key (lit "choices"))));
    solve [discriminate | reflexivity].
Defined.

(** X5.  When [requests.post] raises an exception that is neither a
    timeout nor another request exception, the call returns at once
    "Error generating insights: " followed by the text of the exception:
    one request, no retry, no sleep. *)
Theorem unexpected_exception_is_not_retried
    net self tweets tweet_count w e :
  let rq := completion_request self (prompt_of tweets tweet_count) in
  tweets <> [] ->
  post net (posts_made w) rq = inr e ->
  class_of e = OtherException ->
  generate_insights net self tweets tweet_count w
  = (lit "Error generating insights: " ++ str_of e,
     MkWorld (1 + posts_made w) (trace w ++ [Post rq])).
Proof.
  intros rq Hne Hpost Hclass.
  destruct tweets as [| first more]; [contradiction |].
  unfold generate_insights.
  set (prompt := prompt_of (first :: more) tweet_count) in *.
  change (seq 0 max_retries) with [0; 1; 2]%nat.
  cbn [attempt_loop]. unfold bind at 1 2. unfold try_body.
  unfold bind at 1, requests_post. fold rq.
  rewrite Hpost. unfold ret at 1. unfold on_exception. rewrite Hclass.
  reflexivity.
Qed.

Lemma unexpected_exception_is_not_retried_witness :
  generate_insights
    (always (inr (Exn OtherException (lit "certificate verify failed"))))
    sample_agent three_tweets 3 fresh
  = (lit "Error generating insights: " ++ lit "certificate verify failed",
     MkWorld (1 + posts_made fresh)
             (trace fresh
              ++ [Post (completion_request sample_agent
                                           (prompt_of three_tweets 3))])).
Proof.
  apply (@unexpected_exception_is_not_retried
           (always (inr (Exn OtherException
                             (lit "certificate verify failed"))))
           sample_agent three_tweets 3 fresh
           (Exn OtherException (lit "certificate verify failed")));
    solve [discriminate | reflexivity].
Defined.

(** X6.  The loop recovers from any mix of transient answers: when the
    first [k] answers ([k] at most 2) are each a 429, a timeout or
    another connection error and answer [k] is a 200 with a first choice
    of text [t], the call returns [t] stripped, after [k + 1] identical
    requests and the sleeps 1, 2 cut to [k] of them. *)
Theorem recovers_from_transient_answers
    net self tweets tweet_count w k t :
  let rq := completion_request self (prompt_of tweets tweet_count) in
  tweets <> [] ->
  (k < max_retries)%nat ->
  (forall i, (i < k)%nat -> transient (post net (i + posts_made w) rq)) ->
  completes (post net (k + posts_made w) rq) t ->
  exists new,
    generate_insights net self tweets tweet_count w
    = (strip t, MkWorld (S k + posts_made w) (trace w ++ new))
    /\ sleeps new = firstn k [1%Z; 2%Z]
    /\ posts new = repeat rq (S k).
Proof.
  intros rq Hne Hk Htransient Hcompletes.
  destruct tweets as [| first more]; [contradiction |].
  unfold generate_insights.
  set (prompt := prompt_of (first :: more) tweet_count) in *.
  change (seq 0 max_retries) with [0; 1; 2]%nat.
  unfold max_retries in Hk.
  destruct k as [| [| [| k]]]; [| | | lia].
  - rewrite (step_completes net self prompt 0 [1; 2]%nat w Hcompletes).
    exists [Post rq]. repeat split.
  - assert (H0 : transient (post net (posts_made w) rq))
      by (apply (Htransient 0%nat); lia).
    destruct (@step_transient net self prompt 0%nat [1; 2]%nat w H0)
      as [l0 ->]; [unfold max_retries; lia |].
    erewrite step_completes; [| exact Hcompletes].
    cbn [posts_made trace]. rewrite <- !app_assoc. cbn [app].
    eexists. split; [reflexivity |]. split; reflexivity.
  - assert (H0 : transient (post net (posts_made w) rq))
      by (apply (Htransient 0%nat); lia).
    destruct (@step_transient net self prompt 0%nat [1; 2]%nat w H0)
      as [l0 ->]; [unfold max_retries; lia |].
    assert (H1 : transient (post net (S (posts_made w)) rq))
      by (apply (Htransient 1%nat); lia).
    match goal with |- context [attempt_loop _ _ _ _ ?w1] =>
      destruct (@step_transient net self prompt 1%nat [2]%nat w1 H1)
        as [l1 ->]; [unfold max_retries; lia |]
    end.
    erewrite step_completes; [| exact Hcompletes].
    cbn [posts_made trace]. rewrite <- !app_assoc. cbn [app].
    eexists. split; [reflexivity |]. split; reflexivity.
Qed.

Lemma recovers_from_transient_answers_witness :
  exists new,
    generate_insights
      (scripted [inr timed_out] (inl (completion (lit " 1. Steady. "))))
      sample_agent three_tweets 3 fresh
    = (strip (lit " 1. Steady. "),
       MkWorld (2 + posts_made fresh) (trace fresh ++ new))
    /\ sleeps new = firstn 1 [1%Z; 2%Z]
    /\ posts new
       = repeat (completion_request sample_agent (prompt_of three_tweets 3))
                2.
Proof.
  apply (@recovers_from_transient_answers
           (scripted [inr timed_out]
                     (inl (completion (lit " 1. Steady. "))))
           sample_agent three_tweets 3 fresh 1 (lit " 1. Steady. ")).
  - discriminate.
  - unfold max_retries. lia.
  - intros i Hi. assert (i = 0)%nat as -> by lia. cbn. discriminate.
  - exists (completion (lit " 1. Steady. ")),
      [ (lit "id", JStr (lit "gen-1"));
        (lit "choices",
         JArr [ JObj [ (lit "text", JStr (lit " 1. Steady. ")) ] ]) ],
      [ (lit "text", JStr (lit " 1. Steady. ")) ], [].
    repeat split.
Defined.

(* ===================================================================== *)
(** ** What [strip] leaves *)
(* ===================================================================== *)

Lemma lstrip_head s c rest :
  lstrip s = c :: rest -> is_whitespace c = false.
Proof.
  induction s as [| a s IH]; cbn [lstrip]; [discriminate |].
  destruct (is_whitespace a) eqn:Ha; [exact IH |].
  now intros [= <- _].
Qed.

Lemma lstrip_drops_whitespace s :
  exists dropped,
    s = dropped ++ lstrip s /\ forallb is_whitespace dropped = true.
Proof.
  induction s as [| a s [dropped [Hs Hd]]]; cbn [lstrip].
  - now exists [].
  - destruct (is_whitespace a) eqn:Ha.
    + exists (a :: dropped). cbn [app forallb]. rewrite Ha, Hd.
      now rewrite <- Hs.
    + now exists [].
Qed.

Lemma lstrip_keeps_last s a :
  is_whitespace a = false -> lstrip (s ++ [a]) = lstrip s ++ [a].
Proof.
  intros Ha. induction s as [| b s IH]; cbn [app lstrip].
  - now rewrite Ha.
  - destruct (is_whitespace b); [exact IH | reflexivity].
Qed.

Lemma forallb_rev {A : Type} (f : A -> bool) l :
  forallb f (rev l) = forallb f l.
Proof.
  induction l as [| a l IH]; [reflexivity |].
  cbn [rev forallb]. rewrite forallb_app, IH. cbn [forallb].
  now rewrite andb_true_r, andb_comm.
Qed.

(** [strip] removes a run of whitespace at each end and nothing else,
    and what it leaves neither starts nor ends with whitespace. *)
Lemma strip_spec t :
  (exists before after,
      t = before ++ strip t ++ after
      /\ forallb is_whitespace before = true
      /\ forallb is_whitespace after = true)
  /\ (forall c rest, strip t = c :: rest -> is_whitespace c = false)
  /\ (forall front c, strip t = front ++ [c] -> is_whitespace c = false).
Proof.
  unfold strip, rstrip.
  destruct (lstrip_drops_whitespace t) as [before [Ht Hb]].
  destruct (lstrip_drops_whitespace (rev (lstrip t))) as [after [Hr Ha]].
  split; [| split].
  - exists before, (rev after). split; [| split].
    + rewrite <- rev_app_distr, <- Hr, rev_involutive. exact Ht.
    + exact Hb.
    + now rewrite forallb_rev.
  - intros c rest Hstrip.
    destruct (lstrip t) as [| a u] eqn:Hu; [discriminate Hstrip |].
    assert (Hnot : is_whitespace a = false) by exact (lstrip_head _ Hu).
    cbn [rev] in Hstrip. rewrite lstrip_keeps_last in Hstrip by exact Hnot.
    rewrite rev_app_distr in Hstrip. cbn [rev app] in Hstrip.
    now injection Hstrip as <- _.
  - intros front c Hstrip.
    apply (f_equal (@rev N)) in Hstrip.
    rewrite rev_involutive, rev_app_distr in Hstrip. cbn [rev app] in Hstrip.
    exact (lstrip_head _ Hstrip).
Qed.

(** X7.  When the first answer is a 200 with a first choice of text [t],
    the returned insights are [t] without the whitespace at its two
    ends: only whitespace is removed, and the result neither starts nor
    ends with whitespace (it is empty when [t] is all whitespace). *)
Theorem insights_have_no_outer_whitespace
    net self tweets tweet_count w t :
  let rq := completion_request self (prompt_of tweets tweet_count) in
  tweets <> [] ->
  completes (post net (posts_made w) rq) t ->
  let insights := fst (generate_insights net self tweets tweet_count w) in
  (exists before after,
      t = before ++ insights ++ after
      /\ forallb is_whitespace before = true
      /\ forallb is_whitespace after = true)
  /\ (forall c rest, insights = c :: rest -> is_whitespace c = false)
  /\ (forall front c, insights = front ++ [c] -> is_whitespace c = false).
Proof.
  intros rq Hne Hcompletes insights.
  assert (Hresult : insights = strip t).
  { subst insights. destruct tweets as [| first more]; [contradiction |].
    unfold generate_insights.
    change (seq 0 max_retries) with [0; 1; 2]%nat.
    now rewrite (step_completes _ _ _ 0 [1; 2]%nat w Hcompletes). }
  rewrite Hresult. apply strip_spec.
Qed.

Lemma insights_have_no_outer_whitespace_witness :
  (exists before after,
      lit "  1. Upbeat launch week. "
      = before
        ++ fst (generate_insights
                  (always (inl (completion (lit "  1. Upbeat launch week. "))))
                  sample_agent three_tweets 3 fresh)
        ++ after
      /\ forallb is_whitespace before = true
      /\ forallb is_whitespace after = true)
  /\ (forall c rest,
        fst (generate_insights
               (always (inl (completion (lit "  1. Upbeat launch week. "))))
               sample_agent three_tweets 3 fresh) = c :: rest ->
        is_whitespace c = false)
  /\ (forall front c,
        fst (generate_insights
               (always (inl (completion (lit "  1. Upbeat launch week. "))))
               sample_agent three_tweets 3 fresh) = front ++ [c] ->
        is_whitespace c = false).
Proof.
  apply (@insights_have_no_outer_whitespace
           (always (inl (completion (lit "  1. Upbeat launch week. "))))
           sample_agent three_tweets 3 fresh
           (lit "  1. Upbeat launch week. ")).
  - discriminate.
  - exists (completion (lit "  1. Upbeat launch week. ")),
      [ (lit "id", JStr (lit "gen-1"));
        (lit "choices",
         JArr [ JObj [ (lit "text",
                        JStr (lit "  1. Upbeat launch week. ")) ] ]) ],
      [ (lit "text", JStr (lit "  1. Upbeat launch week. ")) ], [].
    repeat split.
Defined.

(** X8.  For every tweet list and count, the prompt contains, for each
    tweet, the line text "Tweet i: " followed by the tweet, where i is
    its position counted from 1. *)
Theorem prompt_lists_every_tweet tweets tweet_count i tweet :
  nth_error tweets i = Some tweet ->
  mentions (prompt_of tweets tweet_count)
           (lit "Tweet " ++ str_of_int (Z.of_nat i + 1) ++ lit ": " ++ tweet).
Proof.
  intros Hnth. unfold prompt_of, build_prompt, tweets_text, enumerate.
  do 7 apply mentions_skip. apply mentions_keep.
  apply (tweets_text_mentions_line tweets 0 i Hnth).
Qed.

Lemma prompt_lists_every_tweet_witness :
  mentions (prompt_of three_tweets 3)
           (lit "Tweet " ++ str_of_int (Z.of_nat 1 + 1) ++ lit ": "
            ++ lit "Launch went well").
Proof.
  apply (@prompt_lists_every_tweet three_tweets 3 1 (lit "Launch went well")).
  reflexivity.
Defined.

(* ===================================================================== *)
(** ** More on the feed fetcher *)
(* ===================================================================== *)



(** X10.  For a user that was found and is not marked protected (the
    attribute is missing, [None] or [False]), whatever the listing
    returns is a success: the tweets are the texts of the listed posts
    in their order, [tweet_count] is their number, and there is no
    [error] entry.  An account without posts gives a success with no
    tweets and [tweet_count] 0. *)
Theorem public_account_is_a_success tw username w user_info data :
  get_user tw (lstrip_chars (lit "@") username) = inl (Some user_info) ->
  protected user_info <> IsBool true ->
  get_users_tweets tw (tweets_query_of user_info) = inl data ->
  exists d,
    fst (get_user_tweets tw username w) = inl d
    /\ dict_get (lit "success") d = Some (VBool true)
    /\ dict_get (lit "tweets") d
       = Some (VList (map tweet_text
                          (match data with Some l => l | None => [] end)))
    /\ dict_get (lit "tweet_count") d
       = Some (VInt (Z.of_nat
                       (List.length
                          (match data with Some l => l | None => [] end))))
    /\ dict_get (lit "user_info") d = Some (VUser user_info)
    /\ dict_get (lit "error") d = None.
Proof.
  intros Hlookup Hpublic Hlist.
  assert (Hnot : is_protected user_info = false).
  { unfold is_protected. destruct (protected user_info) as [| | [|]];
      try reflexivity. now contradiction Hpublic. }
  unfold get_user_tweets, client_get_user. cbv [bind emit ret].
  rewrite Hlookup, Hnot.
  unfold client_get_users_tweets. cbv [bind emit ret]. rewrite Hlist.
  cbn [fst].
  assert (Htexts : texts_of data
                   = map tweet_text
                         (match data with Some l => l | None => [] end))
    by (destruct data as [[| t ts] |]; reflexivity).
  rewrite Htexts. eexists. split; [reflexivity |].
  repeat split. cbn [found dict_get]. now rewrite length_map.
Qed.

Lemma public_account_is_a_success_witness :
  exists d,
    fst (get_user_tweets
           (Twitter (fun _ => inl (Some (User 12 NoAttribute)))
                    (fun _ => inl None) 1700000000)
           (lit "@quiet") fresh) = inl d
    /\ dict_get (lit "success") d = Some (VBool true)
    /\ dict_get (lit "tweets") d = Some (VList (map tweet_text []))
    /\ dict_get (lit "tweet_count") d
       = Some (VInt (Z.of_nat (@List.length tweet [])))
    /\ dict_get (lit "user_info") d = Some (VUser (User 12 NoAttribute))
    /\ dict_get (lit "error") d = None.
Proof.
  apply (@public_account_is_a_success
           (Twitter (fun _ => inl (Some (User 12 NoAttribute)))
                    (fun _ => inl None) 1700000000)
           (lit "@quiet") fresh (User 12 NoAttribute) None);
    solve [discriminate | reflexivity].
Defined.

(** X11.  When a client call raises anything but a rate-limit error, the
    fetch does not raise: it returns a failure record with no tweets and
    no user.  Its message speaks of a failed authentication for
    [Unauthorized], of forbidden access for [Forbidden], and is
    "Error fetching tweets: " followed by the text of the exception
    otherwise. *)
Theorem client_errors_become_failures tw username w e :
  raises tw username e ->
  (forall e_response, e <> TooManyRequests e_response) ->
  exists d error,
    fst (get_user_tweets tw username w) = inl d
    /\ dict_get (lit "success") d = Some (VBool false)
    /\ dict_get (lit "tweets") d = Some (VList [])
    /\ dict_get (lit "user_info") d = Some VNone
    /\ dict_get (lit "error") d = Some (VStr error)
    /\ match e with
       | Unauthorized =>
           mentions error (lit "Twitter API authentication failed")
       | Forbidden => mentions error (lit "Twitter API access forbidden")
       | OtherError message =>
           error = lit "Error fetching tweets: " ++ message
       | TooManyRequests _ => False
       end.
Proof.
  intros Hraises Hother.
  rewrite (get_user_tweets_raises w Hraises).
  destruct e as [e_response | | | message].
  - now contradiction (Hother e_response).
  - do 2 eexists. split; [reflexivity |]. repeat split.
    eexists [], _. reflexivity.
  - do 2 eexists. split; [reflexivity |]. repeat split.
    eexists [], _. reflexivity.
  - do 2 eexists. split; [reflexivity |]. repeat split.
Qed.

Lemma client_errors_become_failures_witness :
  exists d error,
    fst (get_user_tweets
           (lookup_gives (inr (OtherError (lit "connection reset")))
                         1700000000)
           (lit "jack") fresh) = inl d
    /\ dict_get (lit "success") d = Some (VBool false)
    /\ dict_get (lit "tweets") d = Some (VList [])
    /\ dict_get (lit "user_info") d = Some VNone
    /\ dict_get (lit "error") d = Some (VStr error)
    /\ error = lit "Error fetching tweets: " ++ lit "connection reset".
Proof.
  apply (@client_errors_become_failures
           (lookup_gives (inr (OtherError (lit "connection reset")))
                         1700000000)
           (lit "jack") fresh (OtherError (lit "connection reset"))).
  - left. reflexivity.
  - discriminate.
Defined.

(** X12.  When a client call raises a rate-limit error whose response
    has a non-empty reset header that [int()] rejects, the fetch returns
    no record: the [ValueError] of [int()] leaves [get_user_tweets]. *)
Theorem unreadable_reset_header_escapes tw username w response h :
  raises tw username (TooManyRequests (Some response)) ->
  x_rate_limit_reset response = Some h ->
  raw h <> [] ->
  as_int h = None ->
  fst (get_user_tweets tw username w) = inr (ValueError (raw h)).
Proof.
  intros Hraises Hheader Hraw Hint.
  rewrite (get_user_tweets_raises w Hraises).
  unfold on_error, read_reset_time. rewrite Hheader.
  cbn [truthy]. unfold PyStr.eqb.
  destruct (list_eq_dec N.eq_dec (raw h) []) as [Heq | _];
    [contradiction |].
  cbn [negb]. now rewrite Hint.
Qed.

Lemma unreadable_reset_header_escapes_witness :
  fst (get_user_tweets
         (lookup_gives
            (inr (TooManyRequests
                    (Some (HttpResponse
                             (Some (HeaderValue (lit "soon") None))))))
            1700000000)
         (lit "jack") fresh)
  = inr (ValueError (lit "soon")).
Proof.
  apply (@unreadable_reset_header_escapes
           (lookup_gives
              (inr (TooManyRequests
                      (Some (HttpResponse
                               (Some (HeaderValue (lit "soon") None))))))
              1700000000)
           (lit "jack") fresh
           (HttpResponse (Some (HeaderValue (lit "soon") None)))
           (HeaderValue (lit "soon") None)).
  - left. reflexivity.
  - reflexivity.
  - discriminate.
  - reflexivity.
Defined.

Lemma lstrip_chars_at_signs k username :
  lstrip_chars (lit "@") (repeat 64%N k ++ username)
  = lstrip_chars (lit "@") username.
Proof.
  induction k as [| k IH]; [reflexivity |].
  cbn [repeat app lstrip_chars]. exact IH.
Qed.

(** X13.  A handle is taken with or without "@": any number of "@" put
    in front of it changes neither the result nor what the fetch
    requests, and the name that is looked up never starts with "@". *)
Theorem leading_at_signs_are_ignored tw username w k :
  get_user_tweets tw (repeat 64%N k ++ username) w
  = get_user_tweets tw username w
  /\ forall c rest,
       lstrip_chars (lit "@") username = c :: rest -> c <> 64%N.
Proof.
  split.
  - unfold get_user_tweets. now rewrite lstrip_chars_at_signs.
  - induction username as [| a u IH]; [discriminate |].
    intros c rest. cbn [lstrip_chars].
    destruct (existsb (N.eqb a) (lit "@")) eqn:Ha; [apply IH |].
    intros [= <- _] ->. discriminate Ha.
Qed.

Lemma leading_at_signs_are_ignored_witness :
  get_user_tweets (public_feed two_posts)
                  (repeat 64%N 2 ++ lit "jack") fresh
  = get_user_tweets (public_feed two_posts) (lit "jack") fresh.
Proof.
  apply (proj1 (@leading_at_signs_are_ignored
                  (public_feed two_posts) (lit "jack") fresh 2)).
Defined.

(* ===================================================================== *)
(** ** Start-up *)
(* ===================================================================== *)

Lemma not_set_false value :
  not_set value = false <-> exists s, value = Some s /\ s <> [].
Proof.
  unfold not_set. destruct value as [s |].
  - cbn [truthy]. unfold PyStr.eqb.
    destruct (list_eq_dec N.eq_dec s []) as [-> | Hne]; cbn [negb].
    + split; [discriminate | intros [s [[= <-] Hs]]; now contradiction Hs].
    + split; [intros _; now exists s | reflexivity].
  - split; [discriminate | intros [s [[=] _]]].
Qed.

(** X14.  Constructing the agent succeeds exactly when both
    TWITTER_BEARER_TOKEN and OPENROUTER_API_KEY are set to non-empty
    strings; the agent then holds these two values, and as its model the
    value of OPENROUTER_MODEL when that variable is set (an empty value
    included) and the default model when it is not.  In every other case
    the constructor raises [ValueError] with the fixed message. *)
Theorem init_needs_both_credentials env :
  (forall self,
      init env = inl self
      <-> exists token key,
            getenv env (lit "TWITTER_BEARER_TOKEN") = Some token
            /\ token <> []
            /\ getenv env (lit "OPENROUTER_API_KEY") = Some key
            /\ key <> []
            /\ self
               = MkAgent token key
                   (match getenv env (lit "OPENROUTER_MODEL") with
                    | Some model => model
                    | None => default_model
                    end))
  /\ (forall message, init env = inr message -> message = missing_credentials).
Proof.
  unfold init, getenv_default.
  destruct (not_set (getenv env (lit "TWITTER_BEARER_TOKEN"))) eqn:Htoken;
    [| destruct (not_set (getenv env (lit "OPENROUTER_API_KEY"))) eqn:Hkey];
    cbn [orb].
  - split; [| now intros message [= <-]].
    intros self. split; [discriminate |].
    intros [token [key [Ht [Hnt _]]]].
    assert (not_set (getenv env (lit "TWITTER_BEARER_TOKEN")) = false)
      by (apply not_set_false; eauto).
    congruence.
  - split; [| now intros message [= <-]].
    intros self. split; [discriminate |].
    intros [token [key [_ [_ [Hk [Hnk _]]]]]].
    assert (not_set (getenv env (lit "OPENROUTER_API_KEY")) = false)
      by (apply not_set_false; eauto).
    congruence.
  - apply not_set_false in Htoken. destruct Htoken as [token [Ht Hnt]].
    apply not_set_false in Hkey. destruct Hkey as [key [Hk Hnk]].
    rewrite Ht, Hk. split; [| discriminate].
    intros self. split.
    + intros [= <-]. now exists token, key.
    + intros [token' [key' [[= <-] [_ [[= <-] [_ ->]]]]]]. reflexivity.
Qed.

Lemma init_needs_both_credentials_witness :
  init [ (lit "TWITTER_BEARER_TOKEN", lit "twitter-token");
         (lit "OPENROUTER_API_KEY", lit "openrouter-key");
         (lit "OPENROUTER_MODEL", []) ]
  = inl (MkAgent (lit "twitter-token") (lit "openrouter-key") []).
Proof.
  apply (proj2 (proj1 (@init_needs_both_credentials
                         [ (lit "TWITTER_BEARER_TOKEN", lit "twitter-token");
                           (lit "OPENROUTER_API_KEY", lit "openrouter-key");
                           (lit "OPENROUTER_MODEL", []) ])
                      (MkAgent (lit "twitter-token") (lit "openrouter-key")
                               []))).
  exists (lit "twitter-token"), (lit "openrouter-key").
  repeat split; discriminate.
Defined.

(* ===================================================================== *)
(** ** One analysis *)
(* ===================================================================== *)

(** A handler's result and the events it adds are the same in every
    world; it adds nothing, or one reading of the clock. *)
Lemma on_error_uniform tw e :
  exists r evs,
    (forall w, on_error tw e w
               = (r, MkWorld (posts_made w) (trace w ++ evs)))
    /\ (evs = [] \/ evs = [ReadClock])
    /\ ((exists err, r = inr err)
        \/ (exists error, r = inl (failure error VNone))).
Proof.
  assert (Hsame : forall w, w = MkWorld (posts_made w) (trace w ++ []))
    by (intros [n t]; cbn; now rewrite app_nil_r).
  destruct e as [e_response | | | message];
    try (eexists; exists []; split;
         [intros w; unfold on_error, ret; f_equal; apply Hsame
         | split; [now left | right; eexists; reflexivity]]).
  unfold on_error. destruct (read_reset_time e_response) as [v | err].
  - unfold rate_limit_message. destruct (truthy v).
    + destruct v;
        try (eexists; exists [ReadClock]; split;
             [intros w; reflexivity
             | split; [now right | right; eexists; reflexivity]]).
      destruct (z - now tw >? 0)%Z eqn:Hwait;
        (eexists; exists [ReadClock]; split;
         [intros w; cbv [bind time_time emit ret]; rewrite Hwait;
          reflexivity
         | split; [now right | right; eexists; reflexivity]]).
    + eexists; exists []; split;
        [intros w; cbv [bind ret]; f_equal; apply Hsame
        | split; [now left | right; eexists; reflexivity]].
  - eexists; exists []; split;
      [intros w; unfold ret; f_equal; apply Hsame
      | split; [now left | left; eexists; reflexivity]].
Qed.

(** The three ways a fetch can end, each with the events it adds, the
    same in every world. *)
Lemma get_user_tweets_cases tw username :
  (exists r evs,
      (forall w, get_user_tweets tw username w
                 = (r, MkWorld (posts_made w)
                               (trace w
                                ++ GetUser (lstrip_chars (lit "@") username)
                                   :: evs)))
      /\ posts evs = [] /\ sleeps evs = []
      /\ ((exists err, r = inr err)
          \/ (exists error user_info, r = inl (failure error user_info))))
  \/ (exists user_info data,
        get_user tw (lstrip_chars (lit "@") username) = inl (Some user_info)
        /\ is_protected user_info = false
        /\ get_users_tweets tw (tweets_query_of user_info) = inl data
        /\ forall w,
             get_user_tweets tw username w
             = (inl (found (texts_of data) user_info),
                MkWorld (posts_made w)
                        (trace w
                         ++ [GetUser (lstrip_chars (lit "@") username);
                             GetUsersTweets (tweets_query_of user_info)]))).
Proof.
  unfold get_user_tweets, client_get_user, client_get_users_tweets.
  cbv [bind emit ret].
  destruct (get_user tw (lstrip_chars (lit "@") username))
    as [[user_info |] | e] eqn:Hlookup.
  - destruct (is_protected user_info) eqn:Hprotected.
    + left. do 2 eexists. split; [intros w; reflexivity |].
      repeat split. right. do 2 eexists. reflexivity.
    + destruct (get_users_tweets tw (tweets_query_of user_info))
        as [data | e] eqn:Hlist.
      * right. exists user_info, data.
        split; [reflexivity |]. split; [exact Hprotected |].
        split; [exact Hlist |].
        intros w. cbn [posts_made trace]. now rewrite <- app_assoc.
      * left. destruct (on_error_uniform tw e) as [r [evs [Hrun [Hevs Hr]]]].
        exists r, (GetUsersTweets (tweets_query_of user_info) :: evs).
        split; [| split; [| split]].
        -- intros w. rewrite Hrun. cbn [posts_made trace].
           now rewrite <- !app_assoc.
        -- destruct Hevs as [-> | ->]; reflexivity.
        -- destruct Hevs as [-> | ->]; reflexivity.
        -- destruct Hr as [Hr | [error Hr]]; [now left |].
           right. now exists error, VNone.
  - left. do 2 eexists. split; [intros w; reflexivity |].
    repeat split. right. do 2 eexists. reflexivity.
  - left. destruct (on_error_uniform tw e) as [r [evs [Hrun [Hevs Hr]]]].
    exists r, evs.
    split; [| split; [| split]].
    + intros w. rewrite Hrun. cbn [posts_made trace].
      now rewrite <- !app_assoc.
    + destruct Hevs as [-> | ->]; reflexivity.
    + destruct Hevs as [-> | ->]; reflexivity.
    + destruct Hr as [Hr | [error Hr]]; [now left |].
      right. now exists error, VNone.
Qed.

(** [analyze_user] up to the end of the fetch. *)
Lemma analyze_user_after_fetch py tw net self username w :
  analyze_user py tw net self username w
  = (let (fetched, w1) :=
       get_user_tweets tw username
         (MkWorld (posts_made w)
                  (trace w ++ [Print (analyzing_line username); Sleep 1])) in
     match fetched with
     | inr e => (inr (Escaped e), w1)
     | inl result =>
         match read_key result (lit "success") with
         | inr err => (inr err, w1)
         | inl success =>
             if negb (truthy success) then report_failure py result w1
             else
               match read_key result (lit "tweets") with
               | inr err => (inr err, w1)
               | inl tweets =>
                   match read_key result (lit "tweet_count") with
                   | inr err => (inr err, w1)
                   | inl tweet_count =>
                       match tweets, tweet_count with
                       | VList tweets, VInt tweet_count =>
                           report_insights net self username tweets
                                           tweet_count w1
                       | VList _, _ =>
                           (inr (WrongType (lit "tweet_count")), w1)
                       | _, _ => (inr (WrongType (lit "tweets")), w1)
                       end
                   end
               end
         end
     end).
Proof.
  unfold analyze_user. cbv [bind print time_sleep emit ret].
  cbn [posts_made trace]. rewrite <- app_assoc. cbn [app].
  destruct (get_user_tweets tw username _) as [[result | e] w1];
    [| reflexivity].
  destruct (read_key result (lit "success")) as [success | err];
    [| reflexivity].
  destruct (negb (truthy success)); [reflexivity |].
  destruct (read_key result (lit "tweets")) as [tweets | err];
    [| reflexivity].
  destruct (read_key result (lit "tweet_count")) as [tweet_count | err];
    [| reflexivity].
  destruct tweets; destruct tweet_count; reflexivity.
Qed.

(** The failure branch prints the error line, then the tip when the
    lowered error speaks of a rate limit, and returns. *)
Lemma report_failure_runs py error user_info w :
  report_failure py (failure error user_info) w
  = (inl tt,
     MkWorld (posts_made w)
             (trace w
              ++ Print (mark_cross ++ lit " " ++ error)
                 :: (if contains (lit "rate limit") (lower py error)
                     then [Print tip_line] else []))).
Proof.
  unfold report_failure. change (read_key (failure error user_info)
                                           (lit "error"))
    with (@inl pyval cli_error (VStr error)).
  cbv [bind print emit ret]. cbn [posts_made trace].
  destruct (contains (lit "rate limit") (lower py error));
    cbn [posts_made trace]; now rewrite <- ?app_assoc.
Qed.

(** The success branch with at least one tweet: two lines, the run of
    the generator, four lines. *)
Lemma report_insights_runs net self username tweets tweet_count w :
  tweets <> [] ->
  report_insights net self username tweets tweet_count w
  = (let w1 :=
       MkWorld (posts_made w)
               (trace w
                ++ [Print (if (tweet_count <? 5)%Z
                           then found_line tweet_count
                           else last_five_line);
                    Print generating_line]) in
     let (insights, w2) :=
       generate_insights net self tweets tweet_count w1 in
     (inl tt,
      MkWorld (posts_made w2)
              (trace w2
               ++ [Print (insights_line username); Print (ruler 50);
                   Print insights; Print (ruler 50)]))).
Proof.
  intros Hne. destruct tweets as [| first more]; [contradiction |].
  unfold report_insights. cbn [truthy negb].
  cbv [bind print emit ret].
  destruct (tweet_count <? 5)%Z; cbn [posts_made trace];
    rewrite <- app_assoc; cbn [app];
    destruct (generate_insights _ _ _ _ _) as [insights w2];
    cbn [posts_made trace]; now rewrite <- !app_assoc.
Qed.

Lemma report_insights_empty net self username tweet_count w :
  report_insights net self username [] tweet_count w
  = (inl tt,
     MkWorld (posts_made w) (trace w ++ [Print (no_tweets_line username)])).
Proof. reflexivity. Qed.

(** The ways [analyze_user] can go, with the world each leaves. *)
Lemma analyze_user_cases py tw net self username w :
  (exists err evs,
      fst (get_user_tweets tw username w) = inr err
      /\ posts evs = [] /\ sleeps evs = []
      /\ analyze_user py tw net self username w
         = (inr (Escaped err),
            MkWorld (posts_made w)
                    (trace w
                     ++ Print (analyzing_line username) :: Sleep 1
                        :: GetUser (lstrip_chars (lit "@") username)
                        :: evs)))
  \/ (exists error user_info evs,
        fst (get_user_tweets tw username w) = inl (failure error user_info)
        /\ posts evs = [] /\ sleeps evs = []
        /\ analyze_user py tw net self username w
           = (inl tt,
              MkWorld (posts_made w)
                      (trace w
                       ++ Print (analyzing_line username) :: Sleep 1
                          :: GetUser (lstrip_chars (lit "@") username)
                          :: evs
                          ++ Print (mark_cross ++ lit " " ++ error)
                             :: (if contains (lit "rate limit")
                                             (lower py error)
                                 then [Print tip_line] else []))))
  \/ (exists user_info data,
        fst (get_user_tweets tw username w)
        = inl (found (texts_of data) user_info)
        /\ analyze_user py tw net self username w
           = report_insights net self username (texts_of data)
               (Z.of_nat (List.length (texts_of data)))
               (MkWorld (posts_made w)
                        (trace w
                         ++ [Print (analyzing_line username); Sleep 1;
                             GetUser (lstrip_chars (lit "@") username);
                             GetUsersTweets (tweets_query_of user_info)]))).
Proof.
  rewrite analyze_user_after_fetch.
  destruct (get_user_tweets_cases tw username)
    as [[r [evs [Hrun [Hposts [Hsleeps Hr]]]]]
       | [user_info [data [_ [_ [_ Hrun]]]]]];
    rewrite !Hrun; cbn [fst posts_made trace].
  - destruct Hr as [[err ->] | [error [user_info ->]]].
    + left. exists err, evs. repeat split; try assumption.
      now rewrite <- app_assoc.
    + right. left. exists error, user_info, evs.
      repeat split; try assumption.
      change (read_key (failure error user_info) (lit "success"))
        with (@inl pyval cli_error (VBool false)).
      cbn [truthy negb]. rewrite report_failure_runs.
      cbn [posts_made trace]. rewrite <- !app_assoc. reflexivity.
  - right. right. exists user_info, data. split; [reflexivity |].
    change (read_key (found (texts_of data) user_info) (lit "success"))
      with (@inl pyval cli_error (VBool true)).
    cbn [truthy negb].
    change (read_key (found (texts_of data) user_info) (lit "tweets"))
      with (@inl pyval cli_error (VList (texts_of data))).
    change (read_key (found (texts_of data) user_info) (lit "tweet_count"))
      with (@inl pyval cli_error
                 (VInt (Z.of_nat (List.length (texts_of data))))).
    cbv beta iota. now rewrite <- app_assoc.
Qed.

(** What a run of the generator adds to the world. *)
Lemma generate_insights_requests net self tweets tweet_count w :
  exists evs,
    snd (generate_insights net self tweets tweet_count w)
    = MkWorld (posts_made w + List.length (posts evs)) (trace w ++ evs)
    /\ (forall q, In q (posts evs) ->
          q = completion_request self (prompt_of tweets tweet_count))
    /\ (tweets <> [] -> posts evs <> []).
Proof.
  destruct tweets as [| first more].
  - exists []. cbn. rewrite app_nil_r, Nat.add_0_r. destruct w.
    repeat split; [intros q [] | intros H; now contradiction H].
  - unfold generate_insights.
    destruct (attempt_loop_requests net self
                (prompt_of (first :: more) tweet_count)
                (seq 0 max_retries) w) as [evs [Ht [Hn [Hall Hsome]]]].
    exists evs. split; [| split].
    + destruct (snd (attempt_loop _ _ _ _ _)) as [n t].
      cbn [trace posts_made] in Ht, Hn. now rewrite Ht, Hn.
    + exact Hall.
    + intros _. apply Hsome. discriminate.
Qed.

(** X15.  Every analysis begins in the same way: it prints the
    "Analyzing" line, sleeps 1 second, and only then looks the user up,
    under the handle without its leading "@"s. *)
Theorem analysis_pauses_before_the_lookup py tw net self username w :
  exists rest,
    trace (snd (analyze_user py tw net self username w))
    = trace w
      ++ Print (analyzing_line username) :: Sleep 1
         :: GetUser (lstrip_chars (lit "@") username) :: rest.
Proof.
  destruct (analyze_user_cases py tw net self username w)
    as [[err [evs [_ [_ [_ ->]]]]]
       | [[error [user_info [evs [_ [_ [_ ->]]]]]]
          | [user_info [data [_ ->]]]]].
  - eexists. reflexivity.
  - eexists. reflexivity.
  - destruct (texts_of data) as [| first more] eqn:Htexts.
    + rewrite report_insights_empty. cbn [snd trace posts_made].
      rewrite <- app_assoc. eexists. reflexivity.
    + rewrite report_insights_runs by discriminate.
      cbv zeta.
      match goal with |- context [generate_insights ?n ?s ?t ?c ?w1] =>
        destruct (generate_insights_requests n s t c w1) as [evs [Hw _]];
        destruct (generate_insights n s t c w1) as [insights w2]
      end.
      cbn [snd] in Hw. rewrite Hw. cbn [snd trace posts_made].
      rewrite <- !app_assoc. eexists. reflexivity.
Qed.

(** X16.  An analysis sends a completion request only when the fetch
    returned a success record with at least one tweet: after a failed
    fetch, an escaping error or an empty tweet list the generator is not
    called, so its empty-list answer is never produced from here. *)
Theorem analysis_requests_need_tweets py tw net self username w :
  posts_made (snd (analyze_user py tw net self username w)) <> posts_made w ->
  exists d tweets,
    fst (get_user_tweets tw username w) = inl d
    /\ dict_get (lit "success") d = Some (VBool true)
    /\ dict_get (lit "tweets") d = Some (VList tweets)
    /\ tweets <> [].
Proof.
  destruct (analyze_user_cases py tw net self username w)
    as [[err [evs [_ [_ [_ ->]]]]]
       | [[error [user_info [evs [_ [_ [_ ->]]]]]]
          | [user_info [data [Hfetch ->]]]]].
  - intros H. now contradiction H.
  - intros H. now contradiction H.
  - destruct (texts_of data) as [| first more] eqn:Htexts.
    + rewrite report_insights_empty. intros H. now contradiction H.
    + intros _. exists (found (first :: more) user_info), (first :: more).
      repeat split; [exact Hfetch | discriminate].
Qed.

Lemma analysis_requests_need_tweets_witness :
  exists d tweets,
    fst (get_user_tweets (public_feed two_posts) (lit "@jack") fresh)
    = inl d
    /\ dict_get (lit "success") d = Some (VBool true)
    /\ dict_get (lit "tweets") d = Some (VList tweets)
    /\ tweets <> [].
Proof.
  apply (@analysis_requests_need_tweets
           sample_python (public_feed two_posts)
           (always (inl (completion (lit " 1. ok "))))
           sample_agent (lit "@jack") fresh).
  vm_compute. discriminate.
Defined.

(** X17.  After a successful fetch with at least one tweet, an analysis
    is the generator run on exactly the fetched tweets, with their
    number as the count, between fixed console lines: the count line
    ("Found n tweets" below 5, "Analyzing last 5 tweets" otherwise) and
    the "Generating" line before it, and after it the heading, a ruler
    of 50 "=", the returned insights and the ruler again. *)
Theorem analysis_runs_the_generator_on_the_fetched_tweets
    py tw net self username w d tweets :
  fst (get_user_tweets tw username w) = inl d ->
  dict_get (lit "success") d = Some (VBool true) ->
  dict_get (lit "tweets") d = Some (VList tweets) ->
  tweets <> [] ->
  exists user_info,
    analyze_user py tw net self username w
    = (let tweet_count := Z.of_nat (List.length tweets) in
       let w1 :=
         MkWorld (posts_made w)
                 (trace w
                  ++ [Print (analyzing_line username); Sleep 1;
                      GetUser (lstrip_chars (lit "@") username);
                      GetUsersTweets (tweets_query_of user_info);
                      Print (if (tweet_count <? 5)%Z
                             then found_line tweet_count
                             else last_five_line);
                      Print generating_line]) in
       let (insights, w2) :=
         generate_insights net self tweets tweet_count w1 in
       (inl tt,
        MkWorld (posts_made w2)
                (trace w2
                 ++ [Print (insights_line username); Print (ruler 50);
                     Print insights; Print (ruler 50)]))).
Proof.
  intros Hfetch Hsuccess Htweets Hne.
  destruct (analyze_user_cases py tw net self username w)
    as [[err [evs [Hf _]]]
       | [[error [user_info [evs [Hf _]]]]
          | [user_info [data [Hf ->]]]]].
  - rewrite Hf in Hfetch. discriminate.
  - rewrite Hf in Hfetch. injection Hfetch as <-.
    rewrite failure_success in Hsuccess. discriminate.
  - rewrite Hf in Hfetch. injection Hfetch as <-.
    change (dict_get (lit "tweets") (found (texts_of data) user_info))
      with (Some (VList (texts_of data))) in Htweets.
    injection Htweets as ->.
    exists user_info. rewrite report_insights_runs by exact Hne.
    cbv zeta. cbn [posts_made trace]. rewrite <- app_assoc. reflexivity.
Qed.

Lemma analysis_runs_the_generator_on_the_fetched_tweets_witness :
  exists user_info,
    analyze_user sample_python (public_feed two_posts)
                 (always (inl (completion (lit " 1. ok "))))
                 sample_agent (lit "@jack") fresh
    = (let tweet_count :=
         Z.of_nat (List.length [lit "Great day!"; lit "Launch went well"]) in
       let w1 :=
         MkWorld (posts_made fresh)
                 (trace fresh
                  ++ [Print (analyzing_line (lit "@jack")); Sleep 1;
                      GetUser (lstrip_chars (lit "@") (lit "@jack"));
                      GetUsersTweets (tweets_query_of user_info);
                      Print (if (tweet_count <? 5)%Z
                             then found_line tweet_count
                             else last_five_line);
                      Print generating_line]) in
       let (insights, w2) :=
         generate_insights (always (inl (completion (lit " 1. ok "))))
                           sample_agent
                           [lit "Great day!"; lit "Launch went well"]
                           tweet_count w1 in
       (inl tt,
        MkWorld (posts_made w2)
                (trace w2
                 ++ [Print (insights_line (lit "@jack")); Print (ruler 50);
                     Print insights; Print (ruler 50)]))).
Proof.
  apply (@analysis_runs_the_generator_on_the_fetched_tweets
           sample_python (public_feed two_posts)
           (always (inl (completion (lit " 1. ok "))))
           sample_agent (lit "@jack") fresh
           (found [lit "Great day!"; lit "Launch went well"]
                  (User 12 IsNone))
           [lit "Great day!"; lit "Launch went well"]);
    solve [discriminate | reflexivity].
Defined.

(** X18.  The only exception that can leave [analyze_user] is one that
    [get_user_tweets] let escape: every key it reads from the result
    record is there, with a value of the type it needs, on the path that
    reads it. *)
Theorem analysis_raises_only_what_the_fetch_raises
    py tw net self username w err :
  fst (analyze_user py tw net self username w) = inr err ->
  exists e,
    err = Escaped e /\ fst (get_user_tweets tw username w) = inr e.
Proof.
  destruct (analyze_user_cases py tw net self username w)
    as [[e [evs [Hf [_ [_ ->]]]]]
       | [[error [user_info [evs [_ [_ [_ ->]]]]]]
          | [user_info [data [_ ->]]]]].
  - intros [= <-]. now exists e.
  - discriminate.
  - destruct (texts_of data) as [| first more].
    + rewrite report_insights_empty. discriminate.
    + rewrite report_insights_runs by discriminate. cbv zeta.
      destruct (generate_insights _ _ _ _ _). discriminate.
Qed.

Lemma analysis_raises_only_what_the_fetch_raises_witness :
  exists e,
    Escaped (ValueError (lit "soon")) = Escaped e
    /\ fst (get_user_tweets
              (lookup_gives
                 (inr (TooManyRequests
                         (Some (HttpResponse
                                  (Some (HeaderValue (lit "soon") None))))))
                 1700000000)
              (lit "jack") fresh) = inr e.
Proof.
  apply (@analysis_raises_only_what_the_fetch_raises
           sample_python
           (lookup_gives
              (inr (TooManyRequests
                      (Some (HttpResponse
                               (Some (HeaderValue (lit "soon") None))))))
              1700000000)
           (always (inl (completion (lit " 1. ok "))))
           sample_agent (lit "jack") fresh
           (Escaped (ValueError (lit "soon")))).
  reflexivity.
Defined.

(* ===================================================================== *)
(** ** The tip after a rate limit *)
(* ===================================================================== *)

Lemma starts_with_app needle s after :
  starts_with needle s = true -> starts_with needle (s ++ after) = true.
Proof.
  revert s. induction needle as [| a needle IH]; intros s; [reflexivity |].
  destruct s as [| b s]; cbn [starts_with app]; [discriminate |].
  intros H. apply andb_true_iff in H. destruct H as [Hab Hrest].
  rewrite Hab. cbn [andb]. now apply IH.
Qed.

Lemma contains_app needle s after :
  contains needle s = true -> contains needle (s ++ after) = true.
Proof.
  induction s as [| b s IH]; cbn [contains app]; intros H.
  - rewrite orb_false_r in H.
    destruct needle; [destruct after; reflexivity | discriminate H].
  - apply orb_true_iff in H. apply orb_true_iff.
    destruct H as [H | H].
    + left. exact (@starts_with_app needle (b :: s) after H).
    + right. now apply IH.
Qed.

Lemma string_of_uint_is_ascii d :
  is_ascii (lit (NilEmpty.string_of_uint d)) = true.
Proof.
  unfold lit, is_ascii.
  induction d; cbn [NilEmpty.string_of_uint list_ascii_of_string map forallb];
    try rewrite IHd; reflexivity.
Qed.

Lemma str_of_int_is_ascii z : is_ascii (str_of_int z) = true.
Proof.
  unfold str_of_int, NilZero.string_of_int.
  destruct (Z.to_int z) as [d | d]; unfold NilZero.string_of_uint.
  - destruct d; try reflexivity; apply string_of_uint_is_ascii.
  - assert (H : forall s, is_ascii (lit s) = true ->
                          is_ascii (lit (String "-" s)) = true)
      by (intros s Hs; unfold lit, is_ascii in *;
          cbn [list_ascii_of_string map forallb]; now rewrite Hs).
    apply H. destruct d; try reflexivity; apply string_of_uint_is_ascii.
Qed.

(** The two messages of the rate-limit handler are ASCII text whose
    lower-case form speaks of a "rate limit". *)
Lemma rate_limit_messages_lowered py error :
  lowers_ascii py ->
  error = generic_wait_message
  \/ (exists wait_time, error = wait_seconds_message wait_time) ->
  contains (lit "rate limit") (lower py error) = true
  /\ mentions error (lit "rate limit").
Proof.
  intros Hlower [-> | [wait_time ->]].
  - split.
    + rewrite Hlower by reflexivity. reflexivity.
    + exists (lit "Twitter API "),
        (lit " exceeded. Please wait 15 minutes and try again.").
      reflexivity.
  - split.
    + rewrite Hlower.
      * unfold wait_seconds_message, ascii_lower. rewrite map_app.
        apply contains_app. reflexivity.
      * unfold wait_seconds_message, is_ascii. rewrite !forallb_app.
        fold (is_ascii (str_of_int wait_time)).
        rewrite str_of_int_is_ascii. reflexivity.
    + unfold wait_seconds_message.
      exists (lit "Twitter API "),
        (lit " exceeded. Please wait " ++ str_of_int wait_time
         ++ lit " seconds and try again.").
      reflexivity.
Qed.

(** The message of the rate-limit handler, when it returns. *)
Lemma rate_limit_handler_message tw e_response reset_time w :
  read_reset_time e_response = inl reset_time ->
  exists error,
    fst (on_error tw (TooManyRequests e_response) w)
    = inl (failure error VNone)
    /\ (error = generic_wait_message
        \/ exists wait_time, error = wait_seconds_message wait_time).
Proof.
  intros Hread. unfold on_error. rewrite Hread.
  unfold rate_limit_message. destruct (truthy reset_time).
  - destruct reset_time;
      try (exists generic_wait_message; split; [reflexivity | now left]).
    cbv [bind time_time emit ret fst].
    destruct (z - now tw >? 0)%Z.
    + eexists. split; [reflexivity |]. right. eexists. reflexivity.
    + eexists. split; [reflexivity |]. now left.
  - exists generic_wait_message. split; [reflexivity | now left].
Qed.

(** X19.  Provided [str.lower] lowers ASCII text as usual, an analysis
    whose fetch ends in a rate-limit failure record ends by printing
    that record's error line and, right after it, the tip line; nothing
    is sent to the completion endpoint. *)
Theorem rate_limit_failure_prints_the_tip
    py tw net self username w e_response reset_time :
  lowers_ascii py ->
  raises tw username (TooManyRequests e_response) ->
  read_reset_time e_response = inl reset_time ->
  exists evs error,
    analyze_user py tw net self username w
    = (inl tt,
       MkWorld (posts_made w)
               (trace w ++ evs
                ++ [Print (mark_cross ++ lit " " ++ error); Print tip_line]))
    /\ posts evs = []
    /\ mentions error (lit "rate limit").
Proof.
  intros Hlower Hraises Hread.
  destruct (@rate_limit_handler_message tw e_response reset_time w Hread)
    as [message [Hhandler Hform]].
  destruct (@rate_limit_messages_lowered py message Hlower Hform) as [Hcontains Hmentions].
  pose proof (@get_user_tweets_raises tw username _ w Hraises) as Hfetch.
  rewrite Hhandler in Hfetch.
  destruct (analyze_user_cases py tw net self username w)
    as [[err [evs [Hf _]]]
       | [[error [user_info [evs [Hf [Hposts [_ Hrun]]]]]]
          | [user_info [data [Hf _]]]]];
    rewrite Hf in Hfetch; try discriminate Hfetch.
  injection Hfetch as -> _.
  rewrite Hcontains in Hrun.
  exists (Print (analyzing_line username) :: Sleep 1
          :: GetUser (lstrip_chars (lit "@") username) :: evs), message.
  split; [| split].
  - rewrite Hrun. cbn [app]. reflexivity.
  - exact Hposts.
  - exact Hmentions.
Qed.

Lemma rate_limit_failure_prints_the_tip_witness :
  exists evs error,
    analyze_user sample_python
      (lookup_gives (inr (too_many_requests (lit "1700000060") 1700000060))
                    1700000000)
      (always (inl (completion (lit " 1. ok "))))
      sample_agent (lit "@jack") fresh
    = (inl tt,
       MkWorld (posts_made fresh)
               (trace fresh ++ evs
                ++ [Print (mark_cross ++ lit " " ++ error); Print tip_line]))
    /\ posts evs = []
    /\ mentions error (lit "rate limit").
Proof.
  apply (@rate_limit_failure_prints_the_tip
           sample_python
           (lookup_gives
              (inr (too_many_requests (lit "1700000060") 1700000060))
              1700000000)
           (always (inl (completion (lit " 1. ok "))))
           sample_agent (lit "@jack") fresh
           (Some (HttpResponse
                    (Some (HeaderValue (lit "1700000060")
                                       (Some 1700000060%Z)))))
           (VInt 1700000060)).
  - intros s _. reflexivity.
  - left. reflexivity.
  - reflexivity.
Defined.

(* ===================================================================== *)
(** ** The session loop *)
(* ===================================================================== *)

Lemma word_in_In x words : word_in x words = true <-> In x words.
Proof.
  unfold word_in. rewrite existsb_exists. unfold PyStr.eqb. split.
  - intros [y [Hy Heq]].
    destruct (list_eq_dec N.eq_dec x y) as [-> | _]; [exact Hy | discriminate].
  - intros Hin. exists x. split; [exact Hin |].
    destruct (list_eq_dec N.eq_dec x x) as [_ | Hne];
      [reflexivity | now contradiction Hne].
Qed.

Lemma say_reads line s : reads_made (say line s) = reads_made s.
Proof. reflexivity. Qed.

Lemma say_outside line s :
  outside (say line s)
  = MkWorld (posts_made (outside s)) (trace (outside s) ++ [Print line]).
Proof. reflexivity. Qed.





(** X21.  Provided [str.lower] lowers ASCII text as usual: after [k]
    lines of nothing but whitespace, an interrupt or a line that is an
    exit word in any mix of upper and lower case, with or without
    whitespace around it, ends the loop.  The session has then read
    [k + 1] lines, printed the "valid username" notice [k] times and a
    goodbye line, and requested nothing and slept not at all. *)
Theorem blank_lines_then_exit fuel h self s k :
  lowers_ascii (python h) ->
  (forall i, (i < k)%nat ->
     exists text,
       stdin h (i + reads_made s) = Line text /\ strip text = []) ->
  (stdin h (k + reads_made s) = KeyboardInterrupt
   \/ exists text,
        stdin h (k + reads_made s) = Line text
        /\ is_ascii (strip text) = true
        /\ In (ascii_lower (strip text)) exit_words) ->
  (k < fuel)%nat ->
  exists last,
    run_loop fuel h self s
    = (Finished,
       Session (S k + reads_made s)
               (MkWorld (posts_made (outside s))
                        (trace (outside s)
                         ++ repeat
                              (Print (lit "Please enter a valid username."))
                              k
                         ++ [Print last])))
    /\ (last = goodbye_line \/ last = newline ++ goodbye_line).
Proof.
  intros Hlower. revert fuel s.
  induction k as [| k IH]; intros fuel s Hblank Hexit Hfuel.
  - destruct fuel as [| fuel]; [lia |].
    cbn [run_loop Nat.add] in *.
    destruct Hexit as [-> | [text [-> [Hascii Hword]]]].
    + exists (newline ++ goodbye_line). split; [reflexivity | now right].
    + rewrite (Hlower _ Hascii).
      apply word_in_In in Hword. rewrite Hword.
      exists goodbye_line. split; [reflexivity | now left].
  - destruct fuel as [| fuel]; [lia |].
    destruct (Hblank 0%nat) as [text [Hline Hempty]]; [lia |].
    cbn [Nat.add] in Hline. cbn [run_loop]. rewrite Hline, Hempty.
    rewrite (Hlower [] eq_refl).
    change (word_in (ascii_lower []) exit_words) with false.
    change (negb (truthy (VStr []))) with true. cbv iota.
    destruct (IH fuel
                (say (lit "Please enter a valid username.")
                     (Session (S (reads_made s)) (outside s))))
      as [last [Hrun Hlast]].
    + intros i Hi. destruct (Hblank (S i)) as [t [Ht He]]; [lia |].
      exists t. split; [| exact He].
      rewrite say_reads. cbn [reads_made]. rewrite <- Ht. f_equal. lia.
    + rewrite say_reads. cbn [reads_made].
      replace (k + S (reads_made s))%nat with (S k + reads_made s)%nat
        by lia.
      exact Hexit.
    + lia.
    + exists last. split; [| exact Hlast].
      rewrite Hrun. rewrite say_reads, say_outside.
      cbn [posts_made trace reads_made outside].
      cbn [repeat app]. rewrite <- app_assoc. cbn [app].
      f_equal. f_equal. lia.
Qed.

Lemma blank_lines_then_exit_witness :
  exists last,
    run_loop 5
      (typing [lit "   "; lit " Exit "] (public_feed two_posts)
              (always (inl (completion (lit " 1. ok ")))))
      sample_agent start
    = (Finished,
       Session (2 + reads_made start)
               (MkWorld (posts_made (outside start))
                        (trace (outside start)
                         ++ repeat
                              (Print (lit "Please enter a valid username."))
                              1
                         ++ [Print last])))
    /\ (last = goodbye_line \/ last = newline ++ goodbye_line).
Proof.
  apply (@blank_lines_then_exit
           5 (typing [lit "   "; lit " Exit "] (public_feed two_posts)
                     (always (inl (completion (lit " 1. ok ")))))
           sample_agent start 1).
  - intros s _. reflexivity.
  - intros i Hi. assert (i = 0)%nat as -> by lia.
    exists (lit "   "). split; reflexivity.
  - right. exists (lit " Exit "). split; [reflexivity |].
    split; [reflexivity |]. right. left. reflexivity.
  - lia.
Defined.

(** X22.  When every call of [input] raises an exception other than an
    interrupt, as it does once the input is closed, the loop never ends:
    however many passes are run it is still running, each pass has
    printed one "Unexpected error" line, and nothing was requested. *)
Theorem closed_input_never_ends fuel h self s :
  (forall n, exists message, stdin h n = InputError message) ->
  fst (run_loop fuel h self s) = StillRunning
  /\ reads_made (snd (run_loop fuel h self s)) = (fuel + reads_made s)%nat
  /\ posts_made (outside (snd (run_loop fuel h self s)))
     = posts_made (outside s)
  /\ exists lines,
       trace (outside (snd (run_loop fuel h self s)))
       = trace (outside s) ++ lines
       /\ List.length lines = fuel
       /\ forall e, In e lines ->
            exists message, e = Print (unexpected_line message).
Proof.
  intros Hclosed. revert s.
  induction fuel as [| fuel IH]; intros s.
  - cbn [run_loop fst snd]. repeat split.
    exists []. rewrite app_nil_r. repeat split. intros e [].
  - cbn [run_loop].
    destruct (Hclosed (reads_made s)) as [message ->].
    destruct (IH (say (unexpected_line message)
                      (Session (S (reads_made s)) (outside s))))
      as [Hend [Hreads [Hposts [lines [Htrace [Hlen Hall]]]]]].
    split; [exact Hend |]. split; [| split].
    + rewrite Hreads, say_reads. cbn [reads_made]. lia.
    + rewrite Hposts, say_outside. reflexivity.
    + exists (Print (unexpected_line message) :: lines).
      split; [| split].
      * rewrite Htrace, say_outside. cbn [outside trace].
        now rewrite <- app_assoc.
      * cbn [List.length]. now rewrite Hlen.
      * intros e [<- | Hin]; [now exists message | now apply Hall].
Qed.

Lemma closed_input_never_ends_witness :
  fst (run_loop 4 (typing [] (public_feed two_posts)
                          (always (inl (completion (lit " 1. ok ")))))
                sample_agent start)
  = StillRunning.
Proof.
  apply (@closed_input_never_ends
           4 (typing [] (public_feed two_posts)
                     (always (inl (completion (lit " 1. ok ")))))
           sample_agent start).
  intros n. exists (lit "EOF when reading a line").
  destruct n; reflexivity.
Defined.

(* ===================================================================== *)
(** ** [main] *)
(* ===================================================================== *)



